(** * AGROANCO sales dashboard: the filter and aggregate pipeline of [app.py]

    The script builds a table [df] with the columns [Fecha], [Repuesto],
    [Cantidad_Vendida] and [Inventario], reads a filter from the sidebar
    widgets, selects the rows of [df] that pass it ([mask], [df_filtered]) and
    computes the figures shown on the cards and charts.

    The pandas operations the script calls are embedded as list functions of
    the same names; the script itself is embedded twice: as pure functions of
    the table and the filter, and as a run over a store of Python objects. *)

From Stdlib Require Import ZArith String Ascii Sorted Permutation.
From stdpp Require Import base tactics option list sorting strings.

Local Open Scope Z_scope.

(** ** Data model *)

(** One row of [df].  [Fecha] holds a midnight timestamp of
    [pd.date_range(..., freq='D')]; it is represented by its day number (the
    proleptic Gregorian ordinal), on which [datetime.date] comparison is the
    comparison of integers.  The two numeric columns are int64. *)
Record Row := mkRow {
  Fecha : Z;
  Repuesto : string;
  Cantidad_Vendida : Z;
  Inventario : Z
}.

#[export] Instance Row_eq_dec : EqDecision Row.
Proof. solve_decision. Defined.

Abbreviation DataFrame := (list Row).

(** The values of the sidebar widgets (lines 37-57). *)
Record FilterSpec := mkSpec {
  start_date : Z;
  end_date : Z;
  categoria_seleccionada : list string;
  rango_ventas : Z * Z;
  rango_inventario : Z * Z
}.

(** What [st.error] and [st.warning] put on the page. *)
Inductive Signal :=
  | st_error (msg : string)
  | st_warning (msg : string).

#[export] Instance Signal_eq_dec : EqDecision Signal.
Proof. solve_decision. Defined.

(** Python exceptions the pipeline can raise. *)
Inductive PyExn :=
  | ValueError (msg : string)
  | TypeError (msg : string)
  | NameError (name : string).

Inductive result (A : Type) :=
  | Ok (a : A)
  | Raise (e : PyExn).
Arguments Ok {A} a.
Arguments Raise {A} e.

(** An exception ends the computation; [x ← m; k] is stdpp's notation for
    [mbind]. *)
#[export] Instance result_bind : MBind result := fun A B k m =>
  match m with
  | Ok a => k a
  | Raise e => Raise e
  end.

#[export] Instance result_ret : MRet result := @Ok.

(** ** The pandas operations used by the script *)

(** Keys a table can be grouped by: [groupby] sorts the group keys, so a key
    type comes with a total order.  Dates are ordered as integers, Python
    strings by code point, which on UTF-8 bytes is the byte-wise order. *)
Class KeyOrder (K : Type) `{EqDecision K} := {
  key_leb : K → K → bool;
  key_leb_total a b : key_leb a b = true ∨ key_leb b a = true;
  key_leb_trans a b c : key_leb a b = true → key_leb b c = true → key_leb a c = true;
  key_leb_antisym a b : key_leb a b = true → key_leb b a = true → a = b
}.

#[export, refine] Instance Z_KeyOrder : KeyOrder Z := {| key_leb := Z.leb |}.
Proof.
  - intros a b. rewrite !Z.leb_le. lia.
  - intros a b c. rewrite !Z.leb_le. lia.
  - intros a b. rewrite !Z.leb_le. lia.
Defined.

Lemma ascii_compare_refl (a : ascii) : Ascii.compare a a = Eq.
Proof. unfold Ascii.compare. apply N.compare_refl. Qed.

Lemma ascii_compare_lt_trans (a b c : ascii) :
  Ascii.compare a b = Lt → Ascii.compare b c = Lt → Ascii.compare a c = Lt.
Proof. unfold Ascii.compare. rewrite !N.compare_lt_iff. lia. Qed.

Lemma string_compare_refl (s : string) : String.compare s s = Eq.
Proof. induction s as [|a s IH]; simpl; [done|]. by rewrite ascii_compare_refl. Qed.

Lemma string_compare_lt_trans (s1 s2 s3 : string) :
  String.compare s1 s2 = Lt → String.compare s2 s3 = Lt → String.compare s1 s3 = Lt.
Proof.
  revert s2 s3. induction s1 as [|a s1 IH]; intros [|b s2] [|c s3]; simpl; try done.
  destruct (Ascii.compare a b) eqn:Hab; try done;
    destruct (Ascii.compare b c) eqn:Hbc; try done; intros H1 H2.
  - apply Ascii.compare_eq_iff in Hab, Hbc. subst.
    rewrite ascii_compare_refl. eauto.
  - apply Ascii.compare_eq_iff in Hab. subst. by rewrite Hbc.
  - apply Ascii.compare_eq_iff in Hbc. subst. by rewrite Hab.
  - by rewrite (ascii_compare_lt_trans a b c).
Qed.

Lemma string_leb_trans (a b c : string) :
  String.leb a b = true → String.leb b c = true → String.leb a c = true.
Proof.
  unfold String.leb.
  destruct (String.compare a b) eqn:Hab; try done;
    destruct (String.compare b c) eqn:Hbc; try done; intros _ _.
  - apply String.compare_eq_iff in Hab. subst. by rewrite Hbc.
  - apply String.compare_eq_iff in Hab. subst. by rewrite Hbc.
  - apply String.compare_eq_iff in Hbc. subst. by rewrite Hab.
  - by rewrite (string_compare_lt_trans a b c).
Qed.

#[export, refine] Instance string_KeyOrder : KeyOrder string := {| key_leb := String.leb |}.
Proof.
  - apply String.leb_total.
  - apply string_leb_trans.
  - apply String.leb_antisym.
Defined.

(** The strict order of keys. *)
Definition key_lt {K : Type} `{KeyOrder K} (a b : K) : Prop :=
  key_leb a b = true ∧ a ≠ b.

(** [x] comes before [y]: smaller in [f], or equal in [f] and earlier in
    the index, where [R] orders the index. *)
Definition before {K : Type} (R : relation K) (f : K * Z → Z) (x y : K * Z) : Prop :=
  f x < f y ∨ (f x = f y ∧ R x.1 y.1).

Module pd.

(** [df[c]]: a column as a Series of values, in row order. *)
Definition col {A} (c : Row → A) (df : DataFrame) : list A := fmap c df.

(** [s.dt.date]: the calendar date of every timestamp; on day numbers this
    is the value itself. *)
Definition dt_date (s : list Z) : list Z := s.

(** [s >= x] and [s <= x], element by element. *)
Definition ge (s : list Z) (x : Z) : list bool := fmap (fun v => x <=? v) s.
Definition le (s : list Z) (x : Z) : list bool := fmap (fun v => v <=? x) s.

(** [s.between(left, right)], with the default [inclusive='both']. *)
Definition between (s : list Z) (left right : Z) : list bool :=
  fmap (fun v => (left <=? v) && (v <=? right)) s.

(** [s.isin(values)]. *)
Definition isin (s : list string) (values : list string) : list bool :=
  fmap (fun v => bool_decide (v ∈ values)) s.

(** [m1 & m2] on boolean Series over the same index. *)
Definition and_ (m1 m2 : list bool) : list bool := zip_with andb m1 m2.

(** [df[mask]]: the rows whose mask entry is [True], in row order. *)
Fixpoint getitem_mask (df : DataFrame) (m : list bool) : DataFrame :=
  match df, m with
  | r :: df', b :: m' =>
      if b then r :: getitem_mask df' m' else getitem_mask df' m'
  | _, _ => []
  end.

(** int64 arithmetic wraps around. *)
Definition wrap64 (z : Z) : Z := (z + 2 ^ 63) `mod` 2 ^ 64 - 2 ^ 63.

(** [s.sum()] of an int64 Series: [0] when it is empty. *)
Definition sum (s : list Z) : Z := foldl (fun acc v => wrap64 (acc + v)) 0 s.

(** The exact sum, for the float computation of [mean]. *)
Definition exact_sum (s : list Z) : Z := foldr Z.add 0 s.

(** A float result: [NaN], or the exact quotient that the float
    approximates (rounding is not modelled). *)
Inductive float :=
  | NaN
  | Quot (num : Z) (den : positive).

(** [s.mean()]: the values are summed as float64 and divided by their
    number; the mean of no values is [NaN]. *)
Definition mean (s : list Z) : float :=
  match s with
  | [] => NaN
  | _ :: _ => Quot (exact_sum s) (Pos.of_nat (length s))
  end.

Section grouped.

Context {K : Type} `{KeyOrder K}.

(** A Series with an index of keys: the entries in index order. *)
Definition Series := list (K * Z).

(** The sorted distinct keys: [groupby] is called with its default
    [sort=True]. *)
Fixpoint insert_key (k : K) (ks : list K) : list K :=
  match ks with
  | [] => [k]
  | k' :: ks' =>
      if decide (k = k') then ks
      else if key_leb k k' then k :: ks
      else k' :: insert_key k ks'
  end.

Definition group_keys (ks : list K) : list K := foldr insert_key [] ks.

(** The rows of one group, in row order. *)
Definition group (key : Row → K) (k : K) (df : DataFrame) : DataFrame :=
  filter (fun r => key r = k) df.

(** [df.groupby(key)[val].sum()]: one entry per key that occurs, keys
    ascending. *)
Definition groupby_sum (key : Row → K) (val : Row → Z) (df : DataFrame) : Series :=
  fmap (fun k => (k, sum (col val (group key k df)))) (group_keys (col key df)).

(** [s.idxmax()]: the label of the first entry that holds the maximum;
    [ValueError] on an empty Series. *)
Fixpoint argmax_from (best : K * Z) (s : Series) : K :=
  match s with
  | [] => best.1
  | kv :: s' => if best.2 <? kv.2 then argmax_from kv s' else argmax_from best s'
  end.

Definition idxmax (s : Series) : result K :=
  match s with
  | [] => Raise (ValueError "attempt to get argmax of an empty sequence")
  | kv :: s' => Ok (argmax_from kv s')
  end.

(** A stable sort, ascending in [f]: an entry is put in front of the first
    entry that is not smaller, so entries equal in [f] keep their order. *)
Fixpoint insert_on (f : K * Z → Z) (x : K * Z) (l : Series) : Series :=
  match l with
  | [] => [x]
  | y :: l' => if f x <=? f y then x :: l else y :: insert_on f x l'
  end.

Definition stable_sort_on (f : K * Z → Z) (s : Series) : Series :=
  foldr (insert_on f) [] s.

(** [s.sort_values(ascending=False)]: pandas reverses the Series, sorts
    it ascending and reverses the outcome.  The default [kind='quicksort']
    promises no order among equal values; the order a stable sort gives is
    taken here. *)
Definition sort_values_desc (s : Series) : Series :=
  reverse (stable_sort_on snd (reverse s)).

(** [s.nlargest(n)], with the default [keep='first'].  A Series of at most
    [n] entries is sorted whole with [sort_values] and cut with [head(n)].
    Of a longer one pandas sorts the values negated and shifted by one (which
    cannot overflow) with a stable sort and takes the first [n]: the largest
    values, descending, equal values in order of appearance. *)
Definition nlargest (n : nat) (s : Series) : Series :=
  if decide (length s ≤ n)%nat
  then take n (sort_values_desc s)
  else take n (stable_sort_on (fun kv => - kv.2 - 1) s).

End grouped.

End pd.

Infix "&" := pd.and_ (at level 40, left associativity).

(** ** Lines 40-49: validation in the sidebar *)

Definition Todos : string := "Todos".

Definition msg_fechas : string :=
  "La fecha final debe ser posterior a la fecha inicial.".

Definition msg_categoria : string :=
  "Por favor, selecciona al menos una categoría.".

(** Lines 40-41: the error is shown and the script goes on. *)
Definition check_dates (w : FilterSpec) : list Signal :=
  if decide (start_date w > end_date w) then [st_error msg_fechas] else [].

(** Lines 47-49: an empty selection is warned about and replaced by
    [['Todos']]. *)
Definition check_categorias (w : FilterSpec) : list Signal * list string :=
  match categoria_seleccionada w with
  | [] => ([st_warning msg_categoria], [Todos])
  | _ :: _ => ([], categoria_seleccionada w)
  end.

(** The messages shown, and the filter as the rest of the script sees it. *)
Definition sidebar (w : FilterSpec) : list Signal * FilterSpec :=
  let e := check_dates w in
  let '(a, sel) := check_categorias w in
  (e ++ a,
   {| start_date := start_date w;
      end_date := end_date w;
      categoria_seleccionada := sel;
      rango_ventas := rango_ventas w;
      rango_inventario := rango_inventario w |}).

(** ** Lines 60-70: the filter *)

(** Lines 60-68.  The first four conditions are always applied; the category
    condition is and-ed in only when ['Todos'] is not selected. *)
Definition mask_ranges (df : DataFrame) (start_date end_date : Z)
    (rango_ventas rango_inventario : Z * Z) : list bool :=
  pd.ge (pd.dt_date (pd.col Fecha df)) start_date &
  pd.le (pd.dt_date (pd.col Fecha df)) end_date &
  pd.between (pd.col Cantidad_Vendida df) rango_ventas.1 rango_ventas.2 &
  pd.between (pd.col Inventario df) rango_inventario.1 rango_inventario.2.

Definition mask (df : DataFrame) (s : FilterSpec) : list bool :=
  let m := mask_ranges df (start_date s) (end_date s) (rango_ventas s)
             (rango_inventario s) in
  if bool_decide (Todos ∉ categoria_seleccionada s)
  then m & pd.isin (pd.col Repuesto df) (categoria_seleccionada s)
  else m.

(** Line 70. *)
Definition df_filtered (df : DataFrame) (s : FilterSpec) : DataFrame :=
  pd.getitem_mask df (mask df s).

(** ** Lines 83-86: the figures on the cards *)

Definition ventas_totales (dff : DataFrame) : Z :=
  pd.sum (pd.col Cantidad_Vendida dff).

Definition categoria_mas_vendida (dff : DataFrame) : result string :=
  pd.idxmax (pd.groupby_sum Repuesto Cantidad_Vendida dff).

Definition inventario_total (dff : DataFrame) : Z :=
  pd.sum (pd.col Inventario dff).

Definition promedio_inventario (dff : DataFrame) : pd.float :=
  pd.mean (pd.col Inventario dff).

Record KPIs := mkKPIs {
  kpi_ventas_totales : Z;
  kpi_categoria_mas_vendida : string;
  kpi_inventario_total : Z;
  kpi_promedio_inventario : pd.float
}.

(** The four assignments in the order of the script: an exception in one of
    them ends the run there. *)
Definition kpis (dff : DataFrame) : result KPIs :=
  let vt := ventas_totales dff in
  cmv ← categoria_mas_vendida dff;
  let it := inventario_total dff in
  let pi := promedio_inventario dff in
  Ok (mkKPIs vt cmv it pi).

(** ** Lines 171, 192 and 199: the tables behind the charts *)

Definition ventas_por_categoria (dff : DataFrame) : list (string * Z) :=
  pd.sort_values_desc (pd.groupby_sum Repuesto Cantidad_Vendida dff).

Definition inventario_por_categoria (dff : DataFrame) : list (string * Z) :=
  pd.groupby_sum Repuesto Inventario dff.

Definition top_5_dias (dff : DataFrame) : list (Z * Z) :=
  pd.nlargest 5 (pd.groupby_sum Fecha Cantidad_Vendida dff).

(** ** The whole run, as a function of the table and the widget values *)

(** The figures of a run.  The monthly totals of line 179 need the calendar
    and are embedded apart, as [ventas_mensuales]. *)
Record Aggregates := mkAggregates {
  cards : KPIs;
  chart_ventas_por_categoria : list (string * Z);
  chart_inventario_por_categoria : list (string * Z);
  chart_top_5_dias : list (Z * Z)
}.

Definition aggregates (dff : DataFrame) : result Aggregates :=
  k ← kpis dff;
  Ok (mkAggregates k (ventas_por_categoria dff) (inventario_por_categoria dff)
        (top_5_dias dff)).

(** What a run leaves: the messages on the page, the filtered table, and the
    figures or the exception that stopped the script. *)
Record Outcome := mkOutcome {
  signals : list Signal;
  filtered_records : DataFrame;
  figures : result Aggregates
}.

Definition apply (df : DataFrame) (w : FilterSpec) : Outcome :=
  let '(sigs, s) := sidebar w in
  let dff := df_filtered df s in
  mkOutcome sigs dff (aggregates dff).

(** ** The run over the store of Python objects

    The table, the selected categories and the mask are mutable objects:
    they live in a heap and the script's global names refer to them by
    address.  Dates and ranges are immutable values.  [mask &= ...] updates
    the Series object in place; every other statement binds a name to an
    object that is new. *)

Inductive PyObj :=
  | ODataFrame (rows : DataFrame)
  | OSeries (m : list bool)
  | OList (l : list string).

Record Globals := mkGlobals {
  g_df : nat;
  g_start_date : Z;
  g_end_date : Z;
  g_categoria_seleccionada : nat;
  g_rango_ventas : Z * Z;
  g_rango_inventario : Z * Z;
  g_mask : option nat;
  g_df_filtered : option nat
}.

Record State := mkState {
  heap : list PyObj;
  globals : Globals;
  page : list Signal
}.

(** A statement: it may raise, and it leaves a state either way. *)
Definition M (A : Type) : Type := State → result A * State.

#[export] Instance M_ret : MRet M := fun A a σ => (Ok a, σ).

#[export] Instance M_bind : MBind M := fun A B k m σ =>
  match m σ with
  | (Ok a, σ') => k a σ'
  | (Raise e, σ') => (Raise e, σ')
  end.

Definition lift {A} (r : result A) : M A := fun σ => (r, σ).

Definition global : M Globals := fun σ => (Ok (globals σ), σ).

Definition assign (f : Globals → Globals) : M unit :=
  fun σ => (Ok (), mkState (heap σ) (f (globals σ)) (page σ)).

Definition show (sig : Signal) : M unit :=
  fun σ => (Ok (), mkState (heap σ) (globals σ) (page σ ++ [sig])).

(** A new object gets the next free address. *)
Definition new (o : PyObj) : M nat :=
  fun σ => (Ok (length (heap σ)), mkState (heap σ ++ [o]) (globals σ) (page σ)).

(** An update in place. *)
Definition update (l : nat) (o : PyObj) : M unit :=
  fun σ => (Ok (), mkState (<[l:=o]> (heap σ)) (globals σ) (page σ)).

Definition load_frame (l : nat) : M DataFrame :=
  fun σ =>
    match heap σ !! l with
    | Some (ODataFrame rows) => (Ok rows, σ)
    | _ => (Raise (TypeError "not a DataFrame"), σ)
    end.

Definition load_series (l : nat) : M (list bool) :=
  fun σ =>
    match heap σ !! l with
    | Some (OSeries m) => (Ok m, σ)
    | _ => (Raise (TypeError "not a Series"), σ)
    end.

Definition load_list (l : nat) : M (list string) :=
  fun σ =>
    match heap σ !! l with
    | Some (OList sel) => (Ok sel, σ)
    | _ => (Raise (TypeError "not a list"), σ)
    end.

Definition set_categoria_seleccionada (l : nat) (g : Globals) : Globals :=
  mkGlobals (g_df g) (g_start_date g) (g_end_date g) l
    (g_rango_ventas g) (g_rango_inventario g) (g_mask g) (g_df_filtered g).

Definition set_mask (l : nat) (g : Globals) : Globals :=
  mkGlobals (g_df g) (g_start_date g) (g_end_date g) (g_categoria_seleccionada g)
    (g_rango_ventas g) (g_rango_inventario g) (Some l) (g_df_filtered g).

Definition set_df_filtered (l : nat) (g : Globals) : Globals :=
  mkGlobals (g_df g) (g_start_date g) (g_end_date g) (g_categoria_seleccionada g)
    (g_rango_ventas g) (g_rango_inventario g) (g_mask g) (Some l).

(** The filter that the global names hold, given the selected list. *)
Definition spec_of (g : Globals) (sel : list string) : FilterSpec :=
  mkSpec (g_start_date g) (g_end_date g) sel (g_rango_ventas g) (g_rango_inventario g).

(** Reading a name that may not be bound yet. *)
Definition lookup_name (f : Globals → option nat) (name : string) : M nat :=
  fun σ =>
    match f (globals σ) with
    | Some l => (Ok l, σ)
    | None => (Raise (NameError name), σ)
    end.

(** Lines 40-49. *)
Definition run_sidebar : M () :=
  g ← global;
  (if decide (g_start_date g > g_end_date g)
   then show (st_error msg_fechas) else mret ());;
  sel ← load_list (g_categoria_seleccionada g);
  match sel with
  | [] =>
      show (st_warning msg_categoria);;
      l ← new (OList [Todos]);
      assign (set_categoria_seleccionada l)
  | _ :: _ => mret ()
  end.

(** Lines 60-70. *)
Definition run_filters : M () :=
  g ← global;
  df ← load_frame (g_df g);
  lm ← new (OSeries (mask_ranges df (g_start_date g) (g_end_date g)
                       (g_rango_ventas g) (g_rango_inventario g)));
  assign (set_mask lm);;
  sel ← load_list (g_categoria_seleccionada g);
  (if bool_decide (Todos ∉ sel)
   then lm ← lookup_name g_mask "mask";
        m ← load_series lm;
        update lm (OSeries (m & pd.isin (pd.col Repuesto df) sel))
   else mret ());;
  lm ← lookup_name g_mask "mask";
  m ← load_series lm;
  lf ← new (ODataFrame (pd.getitem_mask df m));
  assign (set_df_filtered lf).

(** Lines 83-86 with lines 171-199. *)
Definition run_figures : M Aggregates :=
  lf ← lookup_name g_df_filtered "df_filtered";
  dff ← load_frame lf;
  lift (aggregates dff).

Definition script : M Aggregates :=
  run_sidebar;; run_filters;; run_figures.

(** The objects and the binding that the sidebar adds. *)
Definition sidebar_objs (sel : list string) : list PyObj :=
  match sel with [] => [OList [Todos]] | _ :: _ => [] end.

Definition sidebar_globals (h : list PyObj) (g : Globals) (sel : list string) : Globals :=
  match sel with
  | [] => set_categoria_seleccionada (length h) g
  | _ :: _ => g
  end.

(** The rows the name [df_filtered] refers to. *)
Definition filtered_of (σ : State) : option DataFrame :=
  match g_df_filtered (globals σ) with
  | Some l =>
      match heap σ !! l with
      | Some (ODataFrame rows) => Some rows
      | _ => None
      end
  | None => None
  end.

(** ** Quantities the claims speak of *)

(** The summed quantity of one category, and of one day, as [groupby]
    computes them. *)
Definition ventas_de_categoria (dff : DataFrame) (c : string) : Z :=
  pd.sum (pd.col Cantidad_Vendida (pd.group Repuesto c dff)).


(** The tie-break in the words of the specification: the category of the
    first row, in row order, whose category reaches the largest summed
    quantity. *)
Definition first_top_in_row_order (dff : DataFrame) : option string :=
  Repuesto <$>
    head (filter (fun r =>
            Forall (fun r' => ventas_de_categoria dff (Repuesto r')
                              ≤ ventas_de_categoria dff (Repuesto r)) dff) dff).

(** *** The four predicates, row by row *)

Definition in_dates (s : FilterSpec) (r : Row) : Prop :=
  start_date s ≤ Fecha r ∧ Fecha r ≤ end_date s.

Definition in_ventas (s : FilterSpec) (r : Row) : Prop :=
  (rango_ventas s).1 ≤ Cantidad_Vendida r ∧ Cantidad_Vendida r ≤ (rango_ventas s).2.

Definition in_inventario (s : FilterSpec) (r : Row) : Prop :=
  (rango_inventario s).1 ≤ Inventario r ∧ Inventario r ≤ (rango_inventario s).2.

Definition in_categorias (s : FilterSpec) (r : Row) : Prop :=
  Repuesto r ∈ categoria_seleccionada s ∨ Todos ∈ categoria_seleccionada s.

(** The three conditions that do not look at the category. *)
Definition in_ranges (s : FilterSpec) (r : Row) : Prop :=
  in_dates s r ∧ in_ventas s r ∧ in_inventario s r.

Definition passes (s : FilterSpec) (r : Row) : Prop :=
  in_dates s r ∧ in_ventas s r ∧ in_inventario s r ∧ in_categorias s r.

#[export] Instance in_ranges_dec s r : Decision (in_ranges s r).
Proof. unfold in_ranges, in_dates, in_ventas, in_inventario. apply _. Defined.

#[export] Instance passes_dec s r : Decision (passes s r).
Proof.
  unfold passes, in_dates, in_ventas, in_inventario, in_categorias. apply _.
Defined.

(** The mask entries of one row. *)
Definition ranges_row (s : FilterSpec) (r : Row) : bool :=
  (start_date s <=? Fecha r) && (Fecha r <=? end_date s) &&
  ((rango_ventas s).1 <=? Cantidad_Vendida r) && (Cantidad_Vendida r <=? (rango_ventas s).2) &&
  ((rango_inventario s).1 <=? Inventario r) && (Inventario r <=? (rango_inventario s).2).

Definition mask_row (s : FilterSpec) (r : Row) : bool :=
  if bool_decide (Todos ∉ categoria_seleccionada s)
  then ranges_row s r && bool_decide (Repuesto r ∈ categoria_seleccionada s)
  else ranges_row s r.

(** ** Example tables and filters

    Day 738521 is 2023-01-01.  Every filter is one the widgets can return for
    its table: dates within the dates of the table, ranges within the
    smallest and largest value of the column. *)

Definition ejemplo_df : DataFrame :=
  [mkRow 738521 "Filtro" 5 50; mkRow 738522 "Aceite" 10 30].

(** The widgets untouched. *)
Definition filtro_todo : FilterSpec :=
  mkSpec 738521 738522 ["Todos"] (5, 10) (30, 50).

(** Only "Filtro", only the second day: no row is left. *)
Definition filtro_vacio : FilterSpec :=
  mkSpec 738522 738522 ["Filtro"] (5, 10) (30, 50).


Definition filtro_sin_categorias : FilterSpec :=
  mkSpec 738521 738522 [] (5, 10) (30, 50).

Definition filtro_todos_y_filtro : FilterSpec :=
  mkSpec 738521 738522 ["Todos"; "Filtro"] (5, 10) (30, 50).

(** Two categories with the same total: "Filtro" sold 5 in the first row,
    "Aceite" 3 and 2 in the rows after it. *)
Definition ejemplo_empate_df : DataFrame :=
  [mkRow 738521 "Filtro" 5 50; mkRow 738522 "Aceite" 3 30;
   mkRow 738523 "Aceite" 2 40].

Definition filtro_empate : FilterSpec :=
  mkSpec 738521 738523 ["Todos"] (2, 5) (30, 50).


Definition ejemplo_estado : State :=
  mkState [ODataFrame ejemplo_df; OList []]
    (mkGlobals 0 738521 738522 1 (5, 10) (30, 50) None None) [].

(** ** Lines 8-19: the table of the script *)

(** Dates as day numbers: [datetime.date(y, m, d).toordinal()] and
    [datetime.date.fromordinal(n)] in the proleptic Gregorian calendar, where
    day 1 is 0001-01-01.  The computation counts from March 1st of year 0 in
    eras of 400 years (146097 days). *)
Module datetime.

Definition toordinal (y m d : Z) : Z :=
  let y' := if m <=? 2 then y - 1 else y in
  let era := y' `div` 400 in
  let yoe := y' - era * 400 in
  let mp := if 2 <? m then m - 3 else m + 9 in
  let doy := (153 * mp + 2) `div` 5 + d - 1 in
  let doe := yoe * 365 + yoe `div` 4 - yoe `div` 100 + doy in
  era * 146097 + doe - 305.

Definition fromordinal (n : Z) : Z * Z * Z :=
  let z := n + 305 in
  let era := z `div` 146097 in
  let doe := z - era * 146097 in
  let yoe := (doe - doe `div` 1460 + doe `div` 36524 - doe `div` 146096) `div` 365 in
  let doy := doe - (365 * yoe + yoe `div` 4 - yoe `div` 100) in
  let mp := (5 * doy + 2) `div` 153 in
  let d := doy - (153 * mp + 2) `div` 5 + 1 in
  let m := if mp <? 10 then mp + 3 else mp - 9 in
  let y := yoe + era * 400 in
  (if m <=? 2 then y + 1 else y, m, d).

End datetime.

(** The [.dt] accessor on a column of dates. *)
Module dt.

(** [s.dt.to_period('M')], one value: the month of the day, as pandas
    numbers monthly periods (months since January 1970). *)
Definition to_period_M (n : Z) : Z :=
  let '(y, m, _) := datetime.fromordinal n in (y - 1970) * 12 + (m - 1).

(** [s.dt.to_timestamp()] on a monthly period: the first day of the month. *)
Definition to_timestamp (p : Z) : Z :=
  datetime.toordinal (1970 + p `div` 12) (p `mod` 12 + 1) 1.

End dt.

(** Line 9. *)
Definition n : nat := 365.

(** Line 13: [pd.date_range(start, end, freq='D')], every day from [start]
    to [end]. *)
Definition date_range (start end_ : Z) : list Z := seqZ start (end_ - start + 1).

Definition fechas : list Z :=
  date_range (datetime.toordinal 2023 1 1) (datetime.toordinal 2023 12 31).

(** Line 14: the names [np.random.choice] draws from. *)
Definition repuestos : list string :=
  ["Filtro"; "Aceite"; "Bujía"; "Correa"; "Batería"].

(** Line 19: [pd.DataFrame(data)] on four arrays; arrays of different
    lengths are refused. *)
Definition DataFrame_of (fecha : list Z) (repuesto : list string)
    (cantidad inventario : list Z) : result DataFrame :=
  if decide (length repuesto = length fecha ∧ length cantidad = length fecha
             ∧ length inventario = length fecha)
  then Ok (zip_with (fun fr ci => mkRow fr.1 fr.2 ci.1 ci.2)
             (zip fecha repuesto) (zip cantidad inventario))
  else Raise (ValueError "All arrays must be of same length").

(** The tables lines 12-19 can build.  The dates are fixed; of the three
    random columns only what [np.random.choice] and [np.random.randint]
    promise of every draw is kept: [n] entries, names among [repuestos],
    quantities in [1, 20) and inventories in [20, 100). *)
Definition generado (df : DataFrame) : Prop :=
  ∃ repuesto cantidad inventario,
    length repuesto = n ∧ Forall (fun c => c ∈ repuestos) repuesto ∧
    length cantidad = n ∧ Forall (fun q => 1 ≤ q < 20) cantidad ∧
    length inventario = n ∧ Forall (fun i => 20 ≤ i < 100) inventario ∧
    DataFrame_of fechas repuesto cantidad inventario = Ok df.

(** ** Lines 35-57: what the widgets start from *)

(** Reductions and [unique] of a Series. *)
Module Series.

(** [s.min()] and [s.max()]; [None] stands for the NaT or NaN of an empty
    Series, with which lines 35-57 do not get to a filter. *)
Definition min (s : list Z) : option Z :=
  match s with
  | [] => None
  | v :: s' => Some (foldl Z.min v s')
  end.

Definition max (s : list Z) : option Z :=
  match s with
  | [] => None
  | v :: s' => Some (foldl Z.max v s')
  end.

(** [s.unique()]: the distinct values in order of first appearance. *)
Fixpoint unique_from (seen : list string) (s : list string) : list string :=
  match s with
  | [] => []
  | v :: s' =>
      if decide (v ∈ seen) then unique_from seen s'
      else v :: unique_from (v :: seen) s'
  end.

Definition unique (s : list string) : list string := unique_from [] s.

End Series.

(** Lines 35-36, 52 and 56. *)
Definition min_date (df : DataFrame) : option Z := Series.min (pd.dt_date (pd.col Fecha df)).
Definition max_date (df : DataFrame) : option Z := Series.max (pd.dt_date (pd.col Fecha df)).
Definition min_venta (df : DataFrame) : option Z := Series.min (pd.col Cantidad_Vendida df).
Definition max_venta (df : DataFrame) : option Z := Series.max (pd.col Cantidad_Vendida df).
Definition min_inv (df : DataFrame) : option Z := Series.min (pd.col Inventario df).
Definition max_inv (df : DataFrame) : option Z := Series.max (pd.col Inventario df).

(** Line 44: the options of the multiselect. *)
Definition categorias (df : DataFrame) : list string :=
  Todos :: Series.unique (pd.col Repuesto df).

(** What the widgets return before they are touched: the default of each of
    lines 37, 38, 45, 53 and 57. *)
Definition valores_iniciales (df : DataFrame) : option FilterSpec :=
  d0 ← min_date df; d1 ← max_date df;
  v0 ← min_venta df; v1 ← max_venta df;
  i0 ← min_inv df; i1 ← max_inv df;
  Some (mkSpec d0 d1 [Todos] (v0, v1) (i0, i1)).

(** ** Lines 89 and 179-180 *)

Definition meta_ventas : Z := 7000.

(** Lines 179-180: the quantities summed by month, each month labelled with
    its first day. *)
Definition ventas_mensuales (dff : DataFrame) : list (Z * Z) :=
  (fun pq => (dt.to_timestamp pq.1, pq.2)) <$>
    pd.groupby_sum (fun r => dt.to_period_M (Fecha r)) Cantidad_Vendida dff.

(** A table lines 12-19 can build: names, quantities and inventories go
    round their ranges. *)
Definition ejemplo_generado : DataFrame :=
  (fun d => mkRow d
     (default Todos (repuestos !! Z.to_nat (d `mod` 5)))
     (1 + d `mod` 19) (20 + d `mod` 80)) <$> fechas.

(** ** Facts about the filter *)

Section filter_facts.

Implicit Types (df : DataFrame) (s : FilterSpec) (r : Row).

Lemma mask_ranges_rows df s :
  mask_ranges df (start_date s) (end_date s) (rango_ventas s) (rango_inventario s)
  = ranges_row s <$> df.
Proof.
  unfold mask_ranges, ranges_row, pd.and_, pd.ge, pd.le, pd.between,
    pd.dt_date, pd.col.
  induction df as [|r df IH]; [done|]. csimpl. rewrite IH.
  f_equal. by rewrite !andb_assoc.
Qed.

Lemma and_isin_rows (p : Row → bool) df sel :
  (p <$> df) & pd.isin (pd.col Repuesto df) sel
  = (fun r => p r && bool_decide (Repuesto r ∈ sel)) <$> df.
Proof.
  unfold pd.and_, pd.isin, pd.col.
  induction df as [|r df IH]; [done|]. csimpl. by rewrite IH.
Qed.

Lemma mask_rows df s : mask df s = mask_row s <$> df.
Proof.
  unfold mask, mask_row. rewrite mask_ranges_rows.
  destruct (bool_decide (Todos ∉ categoria_seleccionada s)); [|done].
  apply and_isin_rows.
Qed.

Lemma getitem_mask_map (p : Row → bool) df :
  pd.getitem_mask df (fmap p df) = filter (fun r => p r = true) df.
Proof.
  induction df as [|r df IH]; [done|].
  rewrite filter_cons. csimpl. rewrite IH.
  destruct (p r); by case_decide.
Qed.

Lemma mask_row_passes s r : mask_row s r = true ↔ passes s r.
Proof.
  unfold mask_row, ranges_row, passes, in_dates, in_ventas, in_inventario,
    in_categorias.
  case_bool_decide as HT.
  - rewrite !andb_true_iff, !Z.leb_le, bool_decide_eq_true. tauto.
  - rewrite !andb_true_iff, !Z.leb_le. tauto.
Qed.

Lemma df_filtered_filter df s : df_filtered df s = filter (passes s) df.
Proof.
  unfold df_filtered. rewrite mask_rows, getitem_mask_map.
  apply list_filter_iff. intros r. apply mask_row_passes.
Qed.

End filter_facts.

(** ** Facts about the pandas operations *)

Section sum_facts.

Lemma wrap64_add_l a b : pd.wrap64 (pd.wrap64 a + b) = pd.wrap64 (a + b).
Proof.
  unfold pd.wrap64. f_equal.
  replace ((a + 2 ^ 63) `mod` 2 ^ 64 - 2 ^ 63 + b + 2 ^ 63)
    with ((a + 2 ^ 63) `mod` 2 ^ 64 + b) by lia.
  rewrite Zplus_mod_idemp_l. f_equal. lia.
Qed.

Lemma wrap64_add_r a b : pd.wrap64 (a + pd.wrap64 b) = pd.wrap64 (a + b).
Proof. by rewrite Z.add_comm, wrap64_add_l, Z.add_comm. Qed.

Lemma wrap64_0 : pd.wrap64 0 = 0.
Proof. reflexivity. Qed.

Lemma sum_from a s :
  foldl (fun acc v => pd.wrap64 (acc + v)) (pd.wrap64 a) s
  = pd.wrap64 (a + pd.exact_sum s).
Proof.
  revert a. induction s as [|v s IH]; intros a; simpl.
  - by rewrite Z.add_0_r.
  - rewrite wrap64_add_l, IH. f_equal. lia.
Qed.

(** The int64 sum is the exact sum, wrapped. *)
Lemma sum_exact s : pd.sum s = pd.wrap64 (pd.exact_sum s).
Proof. unfold pd.sum. rewrite <- wrap64_0 at 1. by rewrite sum_from. Qed.

Lemma exact_sum_Permutation s1 s2 :
  s1 ≡ₚ s2 → pd.exact_sum s1 = pd.exact_sum s2.
Proof. induction 1; simpl; lia. Qed.

(** Wrapping the summands does not change the wrapped sum. *)
Lemma sum_wrapped s : pd.sum (fmap pd.wrap64 s) = pd.sum s.
Proof.
  rewrite !sum_exact. induction s as [|v s IH]; csimpl; [done|].
  rewrite wrap64_add_l, <- wrap64_add_r, IH, wrap64_add_r. done.
Qed.

End sum_facts.

Lemma filter_all {A} (P : A → Prop) `{∀ x, Decision (P x)} (l : list A) :
  (∀ x, x ∈ l → P x) → filter P l = l.
Proof.
  induction l as [|x l IH]; intros HP; [done|].
  rewrite filter_cons_True by apply HP, list_elem_of_here.
  f_equal. apply IH. intros y Hy. by apply HP, list_elem_of_further.
Qed.

Lemma filter_none {A} (P : A → Prop) `{∀ x, Decision (P x)} (l : list A) :
  (∀ x, x ∈ l → ¬ P x) → filter P l = [].
Proof.
  induction l as [|x l IH]; intros HP; [done|].
  rewrite filter_cons_False by apply HP, list_elem_of_here.
  apply IH. intros y Hy. by apply HP, list_elem_of_further.
Qed.

Section group_facts.

Context {K : Type} `{KeyOrder K}.
Implicit Types (k : K) (ks : list K) (df : DataFrame).

Lemma key_leb_refl k : key_leb k k = true.
Proof. by destruct (key_leb_total k k). Qed.

Lemma key_lt_irrefl k : ¬ key_lt k k.
Proof. by intros [_ ?]. Qed.

Lemma key_lt_trans a b c : key_lt a b → key_lt b c → key_lt a c.
Proof.
  intros [Hab Nab] [Hbc Nbc]. split; [by eapply key_leb_trans|].
  intros ->. apply Nab. by apply key_leb_antisym.
Qed.

Lemma key_lt_asym a b : key_lt a b → ¬ key_lt b a.
Proof. intros H1 H2. by apply (key_lt_irrefl a), (key_lt_trans a b a). Qed.

Lemma key_leb_false_lt a b : key_leb a b = false → key_lt b a.
Proof.
  intros Hab. split.
  - destruct (key_leb_total a b) as [E|E]; [congruence|done].
  - intros ->. by rewrite key_leb_refl in Hab.
Qed.

Lemma elem_of_insert_key x k ks : x ∈ pd.insert_key k ks ↔ x = k ∨ x ∈ ks.
Proof.
  induction ks as [|k' ks IH]; simpl.
  - by rewrite list_elem_of_singleton, elem_of_nil; tauto.
  - case_decide as E; [subst; rewrite elem_of_cons; tauto|].
    destruct (key_leb k k'); rewrite !elem_of_cons; [done|].
    rewrite IH. tauto.
Qed.

Lemma insert_key_sorted k ks :
  StronglySorted key_lt ks → StronglySorted key_lt (pd.insert_key k ks).
Proof.
  induction ks as [|k' ks IH]; simpl; intros Hs.
  - repeat constructor.
  - case_decide as E; [done|].
    apply StronglySorted_cons in Hs as [Hk' Hs].
    destruct (key_leb k k') eqn:Hle.
    + apply StronglySorted_cons. split; [|by apply StronglySorted_cons].
      assert (key_lt k k') as Hlt by done.
      constructor; [done|].
      eapply Forall_impl; [exact Hk'|]. intros y Hy. by eapply key_lt_trans.
    + apply StronglySorted_cons. split; [|by apply IH].
      apply Forall_forall. intros y [->|Hy]%elem_of_insert_key.
      * by apply key_leb_false_lt.
      * by eapply Forall_forall in Hk'.
Qed.

Lemma elem_of_group_keys x (l : list K) : x ∈ pd.group_keys l ↔ x ∈ l.
Proof.
  induction l as [|k l IH]; simpl; [done|].
  rewrite elem_of_insert_key, elem_of_cons, IH. done.
Qed.

Lemma group_keys_sorted (l : list K) : StronglySorted key_lt (pd.group_keys l).
Proof.
  induction l as [|k l IH]; simpl; [constructor|by apply insert_key_sorted].
Qed.

Lemma sorted_keys_NoDup ks : StronglySorted key_lt ks → NoDup ks.
Proof.
  induction 1 as [|k ks _ IH Hk]; [constructor|].
  apply NoDup_cons. split; [|done].
  intros Hin. eapply Forall_forall in Hk; [|done]. by apply key_lt_irrefl in Hk.
Qed.

Lemma group_keys_NoDup (l : list K) : NoDup (pd.group_keys l).
Proof. apply sorted_keys_NoDup, group_keys_sorted. Qed.

(** The index of a grouped sum: the keys that occur, ascending. *)
Lemma groupby_sum_index (key : Row → K) (val : Row → Z) df :
  (pd.groupby_sum key val df).*1 = pd.group_keys (pd.col key df).
Proof.
  unfold pd.groupby_sum. rewrite <- list_fmap_compose.
  induction (pd.group_keys (pd.col key df)) as [|k ks IH]; csimpl; [done|].
  by rewrite IH.
Qed.

Lemma elem_of_groupby_sum (key : Row → K) (val : Row → Z) df k v :
  (k, v) ∈ pd.groupby_sum key val df ↔
    k ∈ pd.col key df ∧ v = pd.sum (pd.col val (pd.group key k df)).
Proof.
  unfold pd.groupby_sum. rewrite list_elem_of_fmap. split.
  - intros (k' & [= -> ->] & Hk). split; [by rewrite elem_of_group_keys in Hk|done].
  - intros [Hk ->]. exists k. by rewrite elem_of_group_keys.
Qed.

(** Summing group by group is summing the rows whose key is listed. *)
Lemma exact_sum_groups (key : Row → K) (val : Row → Z) df ks :
  NoDup ks →
  pd.exact_sum ((fun k => pd.exact_sum (pd.col val (pd.group key k df))) <$> ks)
  = pd.exact_sum (pd.col val (filter (fun r => key r ∈ ks) df)).
Proof.
  intros Hnd. unfold pd.group, pd.col.
  induction Hnd as [|k ks Hk Hnd IH]; csimpl.
  - induction df as [|r df IHdf]; [done|].
    rewrite filter_cons. case_decide as E; [by apply elem_of_nil in E|done].
  - rewrite IH. clear IH.
    induction df as [|r df IHdf]; [done|].
    rewrite !filter_cons.
    destruct (decide (key r = k)) as [->|Hne].
    + rewrite (decide_False (P := k ∈ ks)) by done.
      rewrite (decide_True (P := k ∈ k :: ks)) by apply list_elem_of_here.
      csimpl. lia.
    + destruct (decide (key r ∈ ks)) as [Hin|Hnin].
      * rewrite (decide_True (P := key r ∈ k :: ks))
          by (by apply list_elem_of_further).
        csimpl. lia.
      * rewrite (decide_False (P := key r ∈ k :: ks)); [done|].
        rewrite elem_of_cons. tauto.
Qed.

(** The grouped sums add up to the sum of the column. *)
Lemma sum_groupby_sum (key : Row → K) (val : Row → Z) df :
  pd.sum (pd.groupby_sum key val df).*2 = pd.sum (pd.col val df).
Proof.
  unfold pd.groupby_sum. rewrite <- list_fmap_compose.
  transitivity (pd.sum (pd.wrap64 <$>
    ((fun k => pd.exact_sum (pd.col val (pd.group key k df))) <$>
       pd.group_keys (pd.col key df)))).
  { rewrite <- list_fmap_compose. f_equal. apply list_fmap_ext.
    intros _ k _. simpl. apply sum_exact. }
  rewrite sum_wrapped, !sum_exact, exact_sum_groups by apply group_keys_NoDup.
  do 3 f_equal. apply filter_all. intros r Hr.
  apply elem_of_group_keys. unfold pd.col. apply list_elem_of_fmap. eauto.
Qed.

End group_facts.


Lemma StronglySorted_impl {A} (R1 R2 : relation A) (l : list A) :
  (∀ x y, R1 x y → R2 x y) → StronglySorted R1 l → StronglySorted R2 l.
Proof.
  intros HR. induction 1 as [|x l _ IH Hx]; constructor; [done|].
  eapply Forall_impl; [exact Hx|]. intros y. apply HR.
Qed.

(** Reversing a list sorted in [flip R] gives a list sorted in [R]. *)
Lemma StronglySorted_flip_reverse {A} (R : relation A) (l : list A) :
  StronglySorted (flip R) l → StronglySorted R (reverse l).
Proof.
  induction 1 as [|x l _ IH Hx]; [constructor|].
  rewrite reverse_cons. apply StronglySorted_app_2; [|done|repeat constructor].
  intros y z Hy ->%list_elem_of_singleton.
  rewrite elem_of_reverse in Hy.
  eapply Forall_forall in Hx; [|exact Hy]. exact Hx.
Qed.

Section series_facts.

Context {K : Type} `{KeyOrder K}.
Implicit Types (s : list (K * Z)) (x y : K * Z).

(** [argmax_from] returns the label of the first entry that holds the
    largest value among [best] and the entries of [s]. *)
Lemma argmax_from_first best s :
  ∃ v,
    ((pd.argmax_from best s, v) = best ∧ Forall (fun kv => kv.2 ≤ v) s) ∨
    (∃ pre post,
        s = pre ++ (pd.argmax_from best s, v) :: post ∧
        best.2 < v ∧
        Forall (fun kv => kv.2 < v) pre ∧
        Forall (fun kv => kv.2 ≤ v) post).
Proof.
  revert best. induction s as [|kv s IH]; intros best; simpl.
  - exists best.2. left. by destruct best.
  - destruct (best.2 <? kv.2) eqn:Hlt.
    + apply Z.ltb_lt in Hlt.
      destruct (IH kv) as (v & [[E Hle] | (pre & post & E & Hv & Hpre & Hpost)]).
      * exists v. right. exists [], s. rewrite E. simpl.
        assert (v = kv.2) as -> by (by rewrite <- E).
        split_and!; [done|done|constructor|done].
      * exists v. right. exists (kv :: pre), post. simpl. rewrite <- E.
        split_and!; [done|lia| |done]. by constructor.
    + apply Z.ltb_ge in Hlt.
      destruct (IH best) as (v & [[E Hle] | (pre & post & E & Hv & Hpre & Hpost)]).
      * exists v. left. split; [done|]. constructor; [|done].
        assert (v = best.2) as -> by (by rewrite <- E). done.
      * exists v. right. exists (kv :: pre), post. simpl. rewrite <- E.
        split_and!; [done|done| |done]. constructor; [lia|done].
Qed.

(** [idxmax] on a Series that is not empty: the entries before the
    returned label are smaller, those after it are not larger. *)
Lemma idxmax_first s :
  s ≠ [] →
  ∃ k v pre post,
    pd.idxmax s = Ok k ∧
    s = pre ++ (k, v) :: post ∧
    Forall (fun kv => kv.2 < v) pre ∧
    Forall (fun kv => kv.2 ≤ v) post.
Proof.
  destruct s as [|kv s]; [done|]. intros _. simpl.
  destruct (argmax_from_first kv s)
    as (v & [[E Hle] | (pre & post & E & Hv & Hpre & Hpost)]).
  - exists (pd.argmax_from kv s), v, [], s. rewrite E. by split_and!.
  - exists (pd.argmax_from kv s), v, (kv :: pre), post.
    split_and!; [done|simpl; congruence|by constructor|done].
Qed.

(** *** The stable sort *)

Lemma elem_of_insert_on f x y s : y ∈ pd.insert_on f x s ↔ y = x ∨ y ∈ s.
Proof.
  induction s as [|z s IH]; simpl.
  - rewrite list_elem_of_singleton, elem_of_nil. tauto.
  - destruct (f x <=? f z); rewrite !elem_of_cons; [done|]. rewrite IH. tauto.
Qed.

Lemma insert_on_Permutation f x s : pd.insert_on f x s ≡ₚ x :: s.
Proof.
  induction s as [|z s IH]; simpl; [done|].
  destruct (f x <=? f z); [done|]. rewrite IH. apply Permutation_swap.
Qed.

Lemma stable_sort_on_Permutation f s : pd.stable_sort_on f s ≡ₚ s.
Proof.
  induction s as [|x s IH]; simpl; [done|].
  by rewrite insert_on_Permutation, IH.
Qed.

Lemma insert_on_sorted (R : relation K) f x s :
  StronglySorted (before R f) s →
  Forall (fun y => R x.1 y.1) s →
  StronglySorted (before R f) (pd.insert_on f x s).
Proof.
  induction s as [|z s IH]; simpl; intros Hs Hx.
  - repeat constructor.
  - apply StronglySorted_cons in Hs as [Hz Hs].
    apply Forall_cons in Hx as [Hxz Hx].
    destruct (f x <=? f z) eqn:Hle.
    + apply Z.leb_le in Hle. apply StronglySorted_cons.
      split; [|by apply StronglySorted_cons].
      constructor.
      * unfold before. destruct (decide (f x = f z)); [by right|left; lia].
      * apply Forall_forall. intros y Hy.
        eapply Forall_forall in Hz, Hx; [|done..].
        unfold before in *. destruct (decide (f x = f y)); [by right|left; lia].
    + apply Z.leb_gt in Hle. apply StronglySorted_cons. split; [|by apply IH].
      apply Forall_forall. intros y [->|Hy]%elem_of_insert_on.
      * by left.
      * by eapply Forall_forall in Hz.
Qed.

(** Sorting a Series whose index is in the order [R]: equal values stay in
    index order. *)
Lemma stable_sort_on_sorted (R : relation K) f s :
  StronglySorted R s.*1 →
  StronglySorted (before R f) (pd.stable_sort_on f s).
Proof.
  induction s as [|x s IH]; csimpl; intros Hs; [constructor|].
  apply StronglySorted_cons in Hs as [Hx Hs].
  apply insert_on_sorted; [by apply IH|].
  apply Forall_forall. intros y Hy.
  rewrite stable_sort_on_Permutation in Hy.
  eapply Forall_forall in Hx; [done|]. apply list_elem_of_fmap. eauto.
Qed.

Lemma before_asym f x y : before key_lt f x y → before key_lt f y x → False.
Proof.
  intros [?|[? Hxy]] [?|[? Hyx]]; try lia. by apply (key_lt_asym x.1 y.1).
Qed.

#[local] Instance before_antisym f : AntiSymm (=) (before key_lt f).
Proof. intros x y Hxy Hyx. by destruct (before_asym f x y). Qed.

(** On a Series whose index is ascending, [sort_values] in descending order
    and the stable sort of the negated values agree. *)
Lemma sort_values_desc_stable s :
  StronglySorted key_lt s.*1 →
  pd.sort_values_desc s = pd.stable_sort_on (fun kv => - kv.2 - 1) s.
Proof.
  intros Hs. unfold pd.sort_values_desc.
  apply (StronglySorted_unique (before key_lt (fun kv => - kv.2 - 1))).
  - apply StronglySorted_flip_reverse.
    eapply StronglySorted_impl;
      [|apply (stable_sort_on_sorted (flip key_lt) snd)].
    + intros x y [?|[? ?]]; [left; lia|right; split; [lia|done]].
    + rewrite fmap_reverse. apply StronglySorted_flip_reverse.
      eapply StronglySorted_impl; [|exact Hs]. by intros x y.
  - by apply stable_sort_on_sorted.
  - by rewrite reverse_Permutation, !stable_sort_on_Permutation,
      reverse_Permutation.
Qed.

(** On such a Series [nlargest] is the first [n] entries of the stable
    sort, whatever the length. *)
Lemma nlargest_take n s :
  StronglySorted key_lt s.*1 →
  pd.nlargest n s = take n (pd.stable_sort_on (fun kv => - kv.2 - 1) s).
Proof.
  intros Hs. unfold pd.nlargest. case_decide; [|done].
  by rewrite sort_values_desc_stable.
Qed.

End series_facts.

(** ** Facts about the run over the store *)

Section store_facts.

Implicit Types (h : list PyObj) (g : Globals) (pg : list Signal)
  (df : DataFrame) (sel : list string).

Lemma run_sidebar_spec h g pg sel :
  h !! g_categoria_seleccionada g = Some (OList sel) →
  run_sidebar (mkState h g pg)
  = (Ok (), mkState (h ++ sidebar_objs sel) (sidebar_globals h g sel)
              (pg ++ (sidebar (spec_of g sel)).1)).
Proof.
  intros Hsel.
  unfold run_sidebar, sidebar, check_dates, check_categorias, mbind, M_bind,
    global, load_list, show, new, assign, mret, M_ret.
  simpl. destruct (decide (g_start_date g > g_end_date g)); simpl;
    rewrite Hsel; destruct sel; simpl; rewrite ?app_nil_r, <- ?app_assoc; done.
Qed.

Lemma run_filters_spec h g pg df sel :
  h !! g_df g = Some (ODataFrame df) →
  h !! g_categoria_seleccionada g = Some (OList sel) →
  run_filters (mkState h g pg)
  = (Ok (),
     mkState (h ++ [OSeries (mask df (spec_of g sel));
                    ODataFrame (df_filtered df (spec_of g sel))])
       (set_df_filtered (S (length h)) (set_mask (length h) g)) pg).
Proof.
  intros Hdf Hsel.
  unfold run_filters, mbind, M_bind, global, load_frame, load_list, load_series,
    lookup_name, update, new, assign, mret, M_ret, df_filtered, mask.
  simpl. rewrite Hdf. simpl.
  rewrite (lookup_app_l_Some _ _ _ _ Hsel).
  destruct (bool_decide (Todos ∉ sel)); simpl.
  - rewrite list_lookup_middle by done. simpl.
    rewrite insert_app_r_alt by done. rewrite Nat.sub_diag. simpl.
    rewrite list_lookup_middle by done. simpl.
    rewrite length_app. simpl. rewrite Nat.add_1_r.
    rewrite <- app_assoc. done.
  - rewrite list_lookup_middle by done. simpl.
    rewrite length_app. simpl. rewrite Nat.add_1_r.
    rewrite <- app_assoc. done.
Qed.

Lemma run_figures_spec h g pg lf dff :
  g_df_filtered g = Some lf →
  h !! lf = Some (ODataFrame dff) →
  run_figures (mkState h g pg) = (aggregates dff, mkState h g pg).
Proof.
  intros Hlf Hdff.
  unfold run_figures, mbind, M_bind, lookup_name, load_frame, lift. simpl.
  rewrite Hlf. simpl. by rewrite Hdff.
Qed.

(** The run of the whole script from a state that holds a table and a
    selection. *)
Lemma script_spec h g pg df sel :
  h !! g_df g = Some (ODataFrame df) →
  h !! g_categoria_seleccionada g = Some (OList sel) →
  let w := spec_of g sel in
  let s := (sidebar w).2 in
  script (mkState h g pg)
  = (aggregates (df_filtered df s),
     mkState
       (h ++ sidebar_objs sel ++
          [OSeries (mask df s); ODataFrame (df_filtered df s)])
       (set_df_filtered (S (length (h ++ sidebar_objs sel)))
          (set_mask (length (h ++ sidebar_objs sel)) (sidebar_globals h g sel)))
       (pg ++ (sidebar w).1)).
Proof.
  intros Hdf Hsel w s. unfold script.
  unfold mbind at 1, M_bind at 1. rewrite (run_sidebar_spec _ _ _ sel) by done.
  unfold mbind at 1, M_bind at 1.
  rewrite (run_filters_spec _ _ _ df (categoria_seleccionada s)).
  - replace (spec_of (sidebar_globals h g sel) (categoria_seleccionada s))
      with s by (by destruct sel).
    rewrite <- app_assoc.
    erewrite run_figures_spec; [done|done|].
    rewrite (app_assoc h), cons_middle, (app_assoc (h ++ _)).
    apply list_lookup_middle. rewrite !length_app. simpl. lia.
  - destruct sel; simpl; [|by apply lookup_app_l_Some].
    by apply lookup_app_l_Some.
  - destruct sel; simpl.
    + by apply list_lookup_middle.
    + rewrite app_nil_r. done.
Qed.

End store_facts.

(** ** Facts about the whole run *)

Section apply_facts.

Implicit Types (df dff : DataFrame) (w s : FilterSpec) (r : Row).

Lemma apply_unfold df w :
  apply df w =
    mkOutcome (sidebar w).1 (df_filtered df (sidebar w).2)
      (aggregates (df_filtered df (sidebar w).2)).
Proof. unfold apply. by destruct (sidebar w). Qed.

(** The sidebar changes nothing but an empty selection. *)
Lemma sidebar_spec w :
  start_date (sidebar w).2 = start_date w ∧
  end_date (sidebar w).2 = end_date w ∧
  rango_ventas (sidebar w).2 = rango_ventas w ∧
  rango_inventario (sidebar w).2 = rango_inventario w ∧
  categoria_seleccionada (sidebar w).2 =
    match categoria_seleccionada w with
    | [] => [Todos]
    | _ :: _ => categoria_seleccionada w
    end.
Proof.
  unfold sidebar, check_categorias. by destruct (categoria_seleccionada w).
Qed.

(** Normalising twice is normalising once. *)
Lemma sidebar_idemp w : (sidebar (sidebar w).2).2 = (sidebar w).2.
Proof.
  unfold sidebar, check_categorias. by destruct (categoria_seleccionada w).
Qed.

Lemma df_filtered_todos df s :
  Todos ∈ categoria_seleccionada s →
  df_filtered df s = filter (in_ranges s) df.
Proof.
  intros HT. rewrite df_filtered_filter. apply list_filter_iff. intros r.
  unfold passes, in_ranges, in_categorias. tauto.
Qed.


(** A table with a row has a group, and its cards are computed. *)
Lemma groupby_sum_nonempty {K : Type} `{KeyOrder K} (key : Row → K) val dff :
  dff ≠ [] → pd.groupby_sum key val dff ≠ [].
Proof.
  destruct dff as [|r dff]; [done|]. intros _ Hnil.
  assert (key r ∈ (pd.groupby_sum key val (r :: dff)).*1) as Hin.
  { rewrite groupby_sum_index. apply elem_of_group_keys.
    unfold pd.col. csimpl. apply list_elem_of_here. }
  rewrite Hnil in Hin. by apply elem_of_nil in Hin.
Qed.

Lemma aggregates_nonempty dff : dff ≠ [] → ∃ a, aggregates dff = Ok a.
Proof.
  intros Hne. unfold aggregates, kpis, categoria_mas_vendida.
  destruct (idxmax_first (pd.groupby_sum Repuesto Cantidad_Vendida dff))
    as (k & v & pre & post & -> & _); [by apply groupby_sum_nonempty|].
  simpl. eauto.
Qed.

End apply_facts.

Section run_twice.

Implicit Types (h : list PyObj) (g : Globals) (pg : list Signal)
  (df : DataFrame) (sel : list string).

(** What a run returns and what it leaves under the name [df_filtered]. *)
Lemma script_outcome h g pg df sel :
  h !! g_df g = Some (ODataFrame df) →
  h !! g_categoria_seleccionada g = Some (OList sel) →
  (script (mkState h g pg)).1 = figures (apply df (spec_of g sel)) ∧
  filtered_of (script (mkState h g pg)).2
    = Some (filtered_records (apply df (spec_of g sel))) ∧
  page (script (mkState h g pg)).2 = pg ++ signals (apply df (spec_of g sel)).
Proof.
  intros Hdf Hsel. rewrite (script_spec h g pg df sel Hdf Hsel), apply_unfold.
  simpl. split_and!; [done| |done].
  unfold filtered_of. simpl.
  rewrite (app_assoc h), cons_middle, (app_assoc (h ++ _)).
  rewrite list_lookup_middle; [done|]. rewrite !length_app. simpl. lia.
Qed.

(** A run leaves every object that was in the heap as it was. *)
Lemma script_preserves_heap h g pg df sel l o :
  h !! g_df g = Some (ODataFrame df) →
  h !! g_categoria_seleccionada g = Some (OList sel) →
  h !! l = Some o →
  heap (script (mkState h g pg)).2 !! l = Some o.
Proof.
  intros Hdf Hsel Hl. rewrite (script_spec h g pg df sel Hdf Hsel). simpl.
  by apply lookup_app_l_Some.
Qed.

(** The bindings after a run: only [categoria_seleccionada], [mask] and
    [df_filtered] may be bound anew, and the selection that is then bound is
    the one the sidebar arrived at. *)
Lemma script_globals h g pg df sel :
  h !! g_df g = Some (ODataFrame df) →
  h !! g_categoria_seleccionada g = Some (OList sel) →
  let σ1 := (script (mkState h g pg)).2 in
  g_df (globals σ1) = g_df g ∧
  g_start_date (globals σ1) = g_start_date g ∧
  g_end_date (globals σ1) = g_end_date g ∧
  g_rango_ventas (globals σ1) = g_rango_ventas g ∧
  g_rango_inventario (globals σ1) = g_rango_inventario g ∧
  heap σ1 !! g_categoria_seleccionada (globals σ1)
    = Some (OList (categoria_seleccionada (sidebar (spec_of g sel)).2)).
Proof.
  intros Hdf Hsel σ1. unfold σ1.
  rewrite (script_spec h g pg df sel Hdf Hsel). simpl.
  destruct sel as [|c sel]; simpl; split_and!; try done.
  - by apply list_lookup_middle.
  - by apply lookup_app_l_Some.
Qed.

End run_twice.

(** ** The claims of the specification *)

(** C1.  Filter exactness: a row is in [df_filtered] exactly when it is a row
    of [df] whose date lies in [start_date, end_date], whose quantity sold and
    inventory lie in their inclusive ranges, and whose category is selected or
    ['Todos'] is selected.  The filter is the one lines 60-68 read, for every
    table and every filter. *)
Theorem filter_exact (df : DataFrame) (s : FilterSpec) (r : Row) :
  r ∈ df_filtered df s ↔
    r ∈ df ∧
    (start_date s ≤ Fecha r ∧ Fecha r ≤ end_date s) ∧
    ((rango_ventas s).1 ≤ Cantidad_Vendida r ∧ Cantidad_Vendida r ≤ (rango_ventas s).2) ∧
    ((rango_inventario s).1 ≤ Inventario r ∧ Inventario r ≤ (rango_inventario s).2) ∧
    (Repuesto r ∈ categoria_seleccionada s ∨ Todos ∈ categoria_seleccionada s).
Proof.
  rewrite df_filtered_filter, list_elem_of_filter.
  unfold passes, in_dates, in_ventas, in_inventario, in_categorias. tauto.
Qed.

(** The same through the sidebar, in terms of the widget values: an empty
    selection counts as ['Todos']. *)
Corollary apply_filter_exact (df : DataFrame) (w : FilterSpec) (r : Row) :
  r ∈ filtered_records (apply df w) ↔
    r ∈ df ∧ in_dates w r ∧ in_ventas w r ∧ in_inventario w r ∧
    (Repuesto r ∈ categoria_seleccionada w ∨ Todos ∈ categoria_seleccionada w
     ∨ categoria_seleccionada w = []).
Proof.
  rewrite apply_unfold. simpl. rewrite df_filtered_filter, list_elem_of_filter.
  unfold passes, in_dates, in_ventas, in_inventario, in_categorias.
  destruct (sidebar_spec w) as (-> & -> & -> & -> & ->).
  destruct (categoria_seleccionada w) as [|c sel].
  - assert (Todos ∈ [Todos]) by apply list_elem_of_here.
    rewrite !elem_of_nil. intuition.
  - intuition congruence.
Qed.

(** C2, as the code has it.  On an empty filtered table the two sums are 0
    and the mean is NaN, but the best-selling category is no sentinel:
    [idxmax] raises [ValueError], and the script stops at line 84. *)
Theorem aggregates_on_empty (df : DataFrame) (s : FilterSpec) :
  df_filtered df s = [] →
  ventas_totales (df_filtered df s) = 0 ∧
  inventario_total (df_filtered df s) = 0 ∧
  promedio_inventario (df_filtered df s) = pd.NaN ∧
  categoria_mas_vendida (df_filtered df s)
    = Raise (ValueError "attempt to get argmax of an empty sequence") ∧
  kpis (df_filtered df s)
    = Raise (ValueError "attempt to get argmax of an empty sequence").
Proof. intros ->. by split_and!. Qed.

Lemma aggregates_on_empty_witness :
  df_filtered ejemplo_df filtro_vacio = [] ∧
  ventas_totales (df_filtered ejemplo_df filtro_vacio) = 0 ∧
  inventario_total (df_filtered ejemplo_df filtro_vacio) = 0 ∧
  promedio_inventario (df_filtered ejemplo_df filtro_vacio) = pd.NaN ∧
  categoria_mas_vendida (df_filtered ejemplo_df filtro_vacio)
    = Raise (ValueError "attempt to get argmax of an empty sequence") ∧
  kpis (df_filtered ejemplo_df filtro_vacio)
    = Raise (ValueError "attempt to get argmax of an empty sequence").
Proof.
  split; [reflexivity|].
  apply (aggregates_on_empty ejemplo_df filtro_vacio). reflexivity.
Defined.

(** C2 as stated fails: with "Filtro" selected and the second day alone no
    row of the example passes, and the best-selling category is an
    exception, so the run has no figures. *)
Lemma top_category_on_empty_raises :
  filtered_records (apply ejemplo_df filtro_vacio) = [] ∧
  categoria_mas_vendida (filtered_records (apply ejemplo_df filtro_vacio))
    = Raise (ValueError "attempt to get argmax of an empty sequence") ∧
  figures (apply ejemplo_df filtro_vacio)
    = Raise (ValueError "attempt to get argmax of an empty sequence").
Proof. by split_and!. Qed.




(** C4.  For every filtered table the per-category totals of the bar chart
    add up to the total of the first card.  Both sides are int64 sums. *)
Theorem category_totals_sum (df : DataFrame) (s : FilterSpec) :
  pd.sum (ventas_por_categoria (df_filtered df s)).*2
  = ventas_totales (df_filtered df s).
Proof.
  unfold ventas_por_categoria, ventas_totales, pd.sort_values_desc.
  rewrite <- (sum_groupby_sum Repuesto Cantidad_Vendida).
  rewrite !sum_exact. f_equal. apply exact_sum_Permutation.
  apply fmap_Permutation.
  by rewrite reverse_Permutation, stable_sort_on_Permutation, reverse_Permutation.
Qed.



(** C6, as the code has it.  On a filtered table with a row, the best-selling
    category is a category of the table whose summed quantity is the largest,
    and among the categories that reach it the first one in the ascending
    order of the names: [groupby] sorts its keys and [idxmax] takes the first
    maximum. *)
Theorem top_category_first_by_name (dff : DataFrame) :
  dff ≠ [] →
  ∃ k,
    categoria_mas_vendida dff = Ok k ∧
    k ∈ pd.col Repuesto dff ∧
    (∀ c, c ∈ pd.col Repuesto dff →
          ventas_de_categoria dff c ≤ ventas_de_categoria dff k) ∧
    (∀ c, c ∈ pd.col Repuesto dff →
          ventas_de_categoria dff c = ventas_de_categoria dff k →
          String.leb k c = true).
Proof.
  intros Hne. unfold categoria_mas_vendida.
  destruct (idxmax_first (pd.groupby_sum Repuesto Cantidad_Vendida dff))
    as (k & v & pre & post & Hk & Hs & Hpre & Hpost);
    [by apply groupby_sum_nonempty|].
  assert ((k, v) ∈ pd.groupby_sum Repuesto Cantidad_Vendida dff) as Hkv.
  { rewrite Hs. apply elem_of_app. right. apply list_elem_of_here. }
  apply elem_of_groupby_sum in Hkv as [Hkin Hv].
  assert (∀ c, c ∈ pd.col Repuesto dff →
            (c, ventas_de_categoria dff c) ∈ pre ∨ c = k ∨
            (c, ventas_de_categoria dff c) ∈ post) as Hcases.
  { intros c Hc.
    assert ((c, ventas_de_categoria dff c)
              ∈ pd.groupby_sum Repuesto Cantidad_Vendida dff) as Hin
      by (by apply elem_of_groupby_sum).
    rewrite Hs in Hin.
    apply elem_of_app in Hin as [Hin|Hin]; [by left|].
    apply elem_of_cons in Hin as [[= -> _]|Hin]; [by right; left|by right; right]. }
  assert (StronglySorted key_lt (pre.*1 ++ k :: post.*1)) as Hsorted.
  { pose proof (group_keys_sorted (pd.col Repuesto dff)) as Hg.
    rewrite <- (groupby_sum_index Repuesto Cantidad_Vendida), Hs in Hg.
    by rewrite fmap_app in Hg. }
  exists k. fold (ventas_de_categoria dff k) in Hv. subst v.
  split_and!; [done|done| |].
  - intros c Hc. destruct (Hcases c Hc) as [Hin|[->|Hin]]; [|done|].
    + eapply Forall_forall in Hpre; [|done]. simpl in Hpre. lia.
    + eapply Forall_forall in Hpost; [|done]. simpl in Hpost. lia.
  - intros c Hc Heq. destruct (Hcases c Hc) as [Hin|[->|Hin]].
    + eapply Forall_forall in Hpre; [|done]. simpl in Hpre. lia.
    + unfold String.leb. by rewrite string_compare_refl.
    + apply StronglySorted_app_1_r, StronglySorted_cons in Hsorted as [Hlt _].
      eapply Forall_forall in Hlt as [Hle _]; [exact Hle|].
      apply list_elem_of_fmap. by exists (c, ventas_de_categoria dff c).
Qed.

Lemma top_category_first_by_name_witness :
  df_filtered ejemplo_df filtro_todo ≠ [] ∧
  ∃ k, categoria_mas_vendida (df_filtered ejemplo_df filtro_todo) = Ok k ∧
       k ∈ pd.col Repuesto (df_filtered ejemplo_df filtro_todo).
Proof.
  assert (df_filtered ejemplo_df filtro_todo ≠ []) as Hne by (by vm_compute).
  split; [exact Hne|].
  destruct (top_category_first_by_name _ Hne) as (k & Hk & Hin & _).
  exists k. split; [exact Hk|exact Hin].
Defined.

(** C6 as stated fails on a tie.  "Filtro" and "Aceite" both sold 5; the
    first row of the table is a "Filtro" row, and the best-selling category
    is "Aceite". *)
Lemma top_category_tie_not_row_order :
  ventas_de_categoria (df_filtered ejemplo_empate_df filtro_empate) "Filtro" = 5 ∧
  ventas_de_categoria (df_filtered ejemplo_empate_df filtro_empate) "Aceite" = 5 ∧
  first_top_in_row_order (df_filtered ejemplo_empate_df filtro_empate)
    = Some "Filtro" ∧
  categoria_mas_vendida (df_filtered ejemplo_empate_df filtro_empate) = Ok "Aceite".
Proof. by vm_compute. Qed.



(** C8.  A run computes the figures and the filtered table of [apply] from
    the table and the filter the state holds; it changes no object that was
    in the heap (the table and the list of selected categories among them)
    and leaves the dates and ranges bound as they were.  Running the script
    again, on the state the first run left or with the widget values bound
    again, gives the same figures and the same filtered table. *)
Theorem script_pure_idempotent (h : list PyObj) (g : Globals) (pg : list Signal)
    (df : DataFrame) (sel : list string) :
  h !! g_df g = Some (ODataFrame df) →
  h !! g_categoria_seleccionada g = Some (OList sel) →
  let σ := mkState h g pg in
  let σ1 := (script σ).2 in
  ((script σ).1 = figures (apply df (spec_of g sel)) ∧
   filtered_of σ1 = Some (filtered_records (apply df (spec_of g sel)))) ∧
  ((∀ l o, h !! l = Some o → heap σ1 !! l = Some o) ∧
   g_df (globals σ1) = g_df g ∧
   g_start_date (globals σ1) = g_start_date g ∧
   g_end_date (globals σ1) = g_end_date g ∧
   g_rango_ventas (globals σ1) = g_rango_ventas g ∧
   g_rango_inventario (globals σ1) = g_rango_inventario g) ∧
  ((script σ1).1 = (script σ).1 ∧
   filtered_of (script σ1).2 = filtered_of σ1) ∧
  (∀ pg', (script (mkState (heap σ1) g pg')).1 = (script σ).1 ∧
          filtered_of (script (mkState (heap σ1) g pg')).2 = filtered_of σ1).
Proof.
  intros Hdf Hsel σ σ1.
  destruct (script_outcome h g pg df sel Hdf Hsel) as (Hr & Hf & _).
  destruct (script_globals h g pg df sel Hdf Hsel)
    as (Hgdf & Hgs & Hge & Hgv & Hgi & Hgsel).
  fold σ in Hr, Hf, Hgdf, Hgs, Hge, Hgv, Hgi, Hgsel.
  fold σ1 in Hf, Hgdf, Hgs, Hge, Hgv, Hgi, Hgsel.
  assert (∀ l o, h !! l = Some o → heap σ1 !! l = Some o) as Hkeep.
  { intros l o Hl. by apply (script_preserves_heap h g pg df sel). }
  split_and!; try done.
  - destruct σ1 as [h1 g1 pg1] eqn:E1. simpl in *.
    assert (h1 !! g_df g1 = Some (ODataFrame df)) as Hdf1
      by (rewrite Hgdf; by apply Hkeep).
    destruct (script_outcome h1 g1 pg1 df _ Hdf1 Hgsel) as (Hr1 & Hf1 & _).
    rewrite Hr1, Hr, !apply_unfold. simpl. f_equal.
    replace (spec_of g1 (categoria_seleccionada (sidebar (spec_of g sel)).2))
      with (sidebar (spec_of g sel)).2; [by rewrite sidebar_idemp|].
    unfold spec_of. rewrite Hgs, Hge, Hgv, Hgi. by destruct sel.
  - destruct σ1 as [h1 g1 pg1] eqn:E1. simpl in *.
    assert (h1 !! g_df g1 = Some (ODataFrame df)) as Hdf1
      by (rewrite Hgdf; by apply Hkeep).
    destruct (script_outcome h1 g1 pg1 df _ Hdf1 Hgsel) as (Hr1 & Hf1 & _).
    rewrite Hf1, Hf, !apply_unfold. simpl. do 2 f_equal.
    replace (spec_of g1 (categoria_seleccionada (sidebar (spec_of g sel)).2))
      with (sidebar (spec_of g sel)).2; [by rewrite sidebar_idemp|].
    unfold spec_of. rewrite Hgs, Hge, Hgv, Hgi. by destruct sel.
  - intros pg'.
    destruct (script_outcome (heap σ1) g pg' df sel) as (Hr1 & Hf1 & _);
      [by apply Hkeep..|].
    by rewrite Hr1, Hf1, Hr, Hf.
Qed.

Lemma script_pure_idempotent_witness :
  (script ejemplo_estado).1 = figures (apply ejemplo_df filtro_sin_categorias) ∧
  heap (script ejemplo_estado).2 !! 0%nat = Some (ODataFrame ejemplo_df) ∧
  heap (script ejemplo_estado).2 !! 1%nat = Some (OList []) ∧
  (script (script ejemplo_estado).2).1 = (script ejemplo_estado).1.
Proof.
  pose proof (script_pure_idempotent
                [ODataFrame ejemplo_df; OList []]
                (mkGlobals 0 738521 738522 1 (5, 10) (30, 50) None None) []
                ejemplo_df [] eq_refl eq_refl)
    as ((Hr & _) & (Hkeep & _) & (Hr2 & _) & _).
  split; [exact Hr|].
  split; [exact (Hkeep 0%nat _ eq_refl)|].
  split; [exact (Hkeep 1%nat _ eq_refl)|exact Hr2].
Defined.

(** C9.  When ['Todos'] is among the selected categories, also next to other
    categories, the mask is the mask of the dates and the two ranges alone:
    rows of every category pass. *)
Theorem todos_skips_category (df : DataFrame) (s : FilterSpec) :
  Todos ∈ categoria_seleccionada s →
  mask df s = mask_ranges df (start_date s) (end_date s) (rango_ventas s)
                (rango_inventario s) ∧
  ∀ r, r ∈ df_filtered df s ↔
         r ∈ df ∧
         (start_date s ≤ Fecha r ∧ Fecha r ≤ end_date s) ∧
         ((rango_ventas s).1 ≤ Cantidad_Vendida r
          ∧ Cantidad_Vendida r ≤ (rango_ventas s).2) ∧
         ((rango_inventario s).1 ≤ Inventario r
          ∧ Inventario r ≤ (rango_inventario s).2).
Proof.
  intros HT. split.
  - unfold mask. by rewrite bool_decide_false by (by intros Hn).
  - intros r. rewrite df_filtered_todos, list_elem_of_filter by done.
    unfold in_ranges, in_dates, in_ventas, in_inventario. tauto.
Qed.

Lemma todos_skips_category_witness :
  Todos ∈ categoria_seleccionada filtro_todos_y_filtro ∧
  mkRow 738522 "Aceite" 10 30 ∈ df_filtered ejemplo_df filtro_todos_y_filtro.
Proof.
  assert (Todos ∈ categoria_seleccionada filtro_todos_y_filtro) as HT
    by apply list_elem_of_here.
  split; [exact HT|].
  apply (todos_skips_category ejemplo_df filtro_todos_y_filtro HT).
  split; [apply list_elem_of_further, list_elem_of_here|].
  simpl. lia.
Defined.

(** C10.  The filtered table is a subsequence of the table: its rows are
    rows of [df], unchanged, in the order of [df], none more often than in
    [df]. *)
Theorem filtered_sublist (df : DataFrame) (s : FilterSpec) :
  df_filtered df s `sublist_of` df.
Proof. rewrite df_filtered_filter. apply sublist_filter. Qed.

(** * Further properties of the script *)

(** ** The calendar *)

Section calendar_facts.

(** The day of the era splits into a year of the era and a day of that
    year, which starts on March 1st. *)
Lemma year_of_era doe :
  0 ≤ doe < 146097 →
  let yoe := (doe - doe `div` 1460 + doe `div` 36524 - doe `div` 146096) `div` 365 in
  0 ≤ yoe ≤ 399 ∧
  0 ≤ doe - (365 * yoe + yoe `div` 4 - yoe `div` 100) ∧
  (yoe < 399 →
   doe < 365 * (yoe + 1) + (yoe + 1) `div` 4 - (yoe + 1) `div` 100).
Proof. intros H yoe. unfold yoe. Z.to_euclidean_division_equations; lia. Qed.

(** The first day of month [m] of year [y], from the parts of the year
    counted from March. *)
Lemma toordinal_parts era yoe mp d :
  0 ≤ yoe ≤ 399 → 0 ≤ mp ≤ 11 →
  let m := if mp <? 10 then mp + 3 else mp - 9 in
  let y := yoe + era * 400 in
  datetime.toordinal (if m <=? 2 then y + 1 else y) m d
  = era * 146097 + (yoe * 365 + yoe `div` 4 - yoe `div` 100)
    + (153 * mp + 2) `div` 5 + d - 1 - 305.
Proof.
  intros Hyoe Hmp m y. unfold datetime.toordinal.
  assert ((if m <=? 2 then (if m <=? 2 then y + 1 else y) - 1
           else (if m <=? 2 then y + 1 else y)) = y) as ->
    by (destruct (m <=? 2); lia).
  assert ((if 2 <? m then m - 3 else m + 9) = mp) as ->.
  { unfold m. destruct (mp <? 10) eqn:E.
    - apply Z.ltb_lt in E. rewrite (proj2 (Z.ltb_lt 2 (mp + 3))) by lia. lia.
    - apply Z.ltb_ge in E. rewrite (proj2 (Z.ltb_ge 2 (mp - 9))) by lia. lia. }
  assert (y `div` 400 = era) as -> by (symmetry; apply (Z.div_unique _ _ _ yoe); lia).
  replace (y - era * 400) with yoe by (unfold y; lia). lia.
Qed.

Lemma fromordinal_parts n :
  ∃ era yoe mp d,
    0 ≤ yoe ≤ 399 ∧ 0 ≤ mp ≤ 11 ∧ 1 ≤ d ∧
    let m := if mp <? 10 then mp + 3 else mp - 9 in
    let y := yoe + era * 400 in
    datetime.fromordinal n = (if m <=? 2 then y + 1 else y, m, d) ∧
    n = era * 146097 + (yoe * 365 + yoe `div` 4 - yoe `div` 100)
        + (153 * mp + 2) `div` 5 + d - 1 - 305 ∧
    (mp < 11 → (153 * mp + 2) `div` 5 + d - 1 < (153 * (mp + 1) + 2) `div` 5) ∧
    (mp = 11 → yoe < 399 →
       n < era * 146097 + ((yoe + 1) * 365 + (yoe + 1) `div` 4 - (yoe + 1) `div` 100) - 305) ∧
    (mp = 11 → yoe = 399 → n < (era + 1) * 146097 - 305).
Proof.
  unfold datetime.fromordinal.
  set (z := n + 305). set (era := z `div` 146097).
  set (doe := z - era * 146097).
  assert (0 ≤ doe < 146097) as Hdoe.
  { unfold doe, era. pose proof (Z.mod_pos_bound z 146097). 
    pose proof (Z.div_mod z 146097). lia. }
  destruct (year_of_era doe Hdoe) as (Hyoe & Hdoy & Hnext).
  set (yoe := (doe - doe `div` 1460 + doe `div` 36524 - doe `div` 146096) `div` 365) in *.
  set (doy := doe - (365 * yoe + yoe `div` 4 - yoe `div` 100)) in *.
  assert (doy ≤ 365) as Hdoy2.
  { destruct (decide (yoe = 399)) as [E|E].
    - unfold doy. rewrite E. change (399 `div` 4) with 99. change (399 `div` 100) with 3. lia.
    - specialize (Hnext ltac:(lia)). unfold doy.
      clearbody yoe. clear -Hnext Hyoe. Z.to_euclidean_division_equations; lia. }
  set (mp := (5 * doy + 2) `div` 153).
  exists era, yoe, mp, (doy - (153 * mp + 2) `div` 5 + 1).
  assert (0 ≤ mp ≤ 11) as Hmp by (unfold mp; clearbody doy; clear -Hdoy Hdoy2; Z.to_euclidean_division_equations; lia).
  split; [exact Hyoe|]. split; [exact Hmp|]. split; [|split; [reflexivity|]].
  { unfold mp. clearbody doy. clear -Hdoy Hdoy2.
    Z.to_euclidean_division_equations; lia. }
  split; [unfold doy, doe, z; lia|]. split; [|split].
  - intros _. unfold mp. clearbody doy. clear -Hdoy Hdoy2.
    Z.to_euclidean_division_equations; lia.
  - intros _ Hy. specialize (Hnext Hy). unfold doe, z in Hnext. lia.
  - intros _ _. unfold doe, z in Hdoe. lia.
Qed.


Lemma to_timestamp_ym Y M :
  1 ≤ M ≤ 12 → dt.to_timestamp ((Y - 1970) * 12 + (M - 1)) = datetime.toordinal Y M 1.
Proof.
  intros HM. unfold dt.to_timestamp.
  assert (((Y - 1970) * 12 + (M - 1)) `div` 12 = Y - 1970) as ->
    by (symmetry; apply (Z.div_unique _ _ _ (M - 1)); lia).
  assert (((Y - 1970) * 12 + (M - 1)) `mod` 12 = M - 1) as ->
    by (symmetry; apply (Z.mod_unique _ _ (Y - 1970)); lia).
  f_equal; lia.
Qed.

(** The same with the year and month given. *)
Lemma toordinal_from_march era yoe mp d Y M :
  0 ≤ yoe ≤ 399 → 0 ≤ mp ≤ 11 →
  M = (if mp <? 10 then mp + 3 else mp - 9) →
  Y = (if M <=? 2 then yoe + era * 400 + 1 else yoe + era * 400) →
  datetime.toordinal Y M d
  = era * 146097 + (yoe * 365 + yoe `div` 4 - yoe `div` 100)
    + (153 * mp + 2) `div` 5 + d - 1 - 305.
Proof. intros ?? -> ->. by apply toordinal_parts. Qed.

(** A day of a month whose parts are known lies between the first day of
    that month and the first day of the next, whose parts are known too. *)
Lemma month_between n d era yoe mp Y M era' yoe' mp' Y' M' :
  0 ≤ yoe ≤ 399 → 0 ≤ mp ≤ 11 → 0 ≤ yoe' ≤ 399 → 0 ≤ mp' ≤ 11 → 1 ≤ d →
  M = (if mp <? 10 then mp + 3 else mp - 9) →
  Y = (if M <=? 2 then yoe + era * 400 + 1 else yoe + era * 400) →
  M' = (if mp' <? 10 then mp' + 3 else mp' - 9) →
  Y' = (if M' <=? 2 then yoe' + era' * 400 + 1 else yoe' + era' * 400) →
  (Y - 1970) * 12 + (M - 1) + 1 = (Y' - 1970) * 12 + (M' - 1) →
  n = era * 146097 + (yoe * 365 + yoe `div` 4 - yoe `div` 100)
      + (153 * mp + 2) `div` 5 + d - 1 - 305 →
  n < era' * 146097 + (yoe' * 365 + yoe' `div` 4 - yoe' `div` 100)
      + (153 * mp' + 2) `div` 5 - 305 →
  dt.to_timestamp ((Y - 1970) * 12 + (M - 1)) ≤ n
  < dt.to_timestamp ((Y - 1970) * 12 + (M - 1) + 1).
Proof.
  intros Hyoe Hmp Hyoe' Hmp' Hd HM HY HM' HY' Hnext Hn Hlt.
  assert (1 ≤ M ≤ 12) by (subst M; destruct (mp <? 10) eqn:E;
    [apply Z.ltb_lt in E|apply Z.ltb_ge in E]; lia).
  assert (1 ≤ M' ≤ 12) by (subst M'; destruct (mp' <? 10) eqn:E;
    [apply Z.ltb_lt in E|apply Z.ltb_ge in E]; lia).
  rewrite Hnext, !to_timestamp_ym by done.
  rewrite (toordinal_from_march era yoe mp 1 Y M) by done.
  rewrite (toordinal_from_march era' yoe' mp' 1 Y' M') by done.
  lia.
Qed.

(** A day lies in its month: on or after the first day of the month, and
    before the first day of the next one. *)
Lemma month_contains n :
  dt.to_timestamp (dt.to_period_M n) ≤ n < dt.to_timestamp (dt.to_period_M n + 1).
Proof.
  destruct (fromordinal_parts n)
    as (era & yoe & mp & d & Hyoe & Hmp & Hd & Hfrom & Hn & Hlt & Hfeb1 & Hfeb2).
  unfold dt.to_period_M. rewrite Hfrom. clear Hfrom.
  destruct (decide (mp < 11)) as [Hmp11|Hmp11].
  - specialize (Hlt Hmp11).
    eapply (month_between n d era yoe mp _ _ era yoe (mp + 1));
      [done|done|done|lia|done|reflexivity|reflexivity|reflexivity|reflexivity
      | |exact Hn|lia].
    destruct (mp <? 10) eqn:E1; [apply Z.ltb_lt in E1|apply Z.ltb_ge in E1];
      destruct (mp + 1 <? 10) eqn:E2;
      [apply Z.ltb_lt in E2|apply Z.ltb_ge in E2| apply Z.ltb_lt in E2|apply Z.ltb_ge in E2];
      try lia.
    + rewrite (proj2 (Z.leb_gt (mp + 3) 2)), (proj2 (Z.leb_gt (mp + 1 + 3) 2)) by lia. lia.
    + assert (mp = 9) as -> by lia. simpl. lia.
    + assert (mp = 10) as -> by lia. simpl. lia.
  - assert (mp = 11) as -> by lia.
    destruct (decide (yoe < 399)) as [Hy|Hy].
    + specialize (Hfeb1 eq_refl Hy).
      eapply (month_between n d era yoe 11 _ _ era (yoe + 1) 0);
        [done|done|lia|done|done|reflexivity|reflexivity|reflexivity|reflexivity
        |simpl; lia|exact Hn|change ((153 * 0 + 2) `div` 5) with 0; lia].
    + assert (yoe = 399) as -> by lia. specialize (Hfeb2 eq_refl eq_refl).
      eapply (month_between n d era 399 11 _ _ (era + 1) 0 0);
        [done|done|done|done|done|reflexivity|reflexivity|reflexivity|reflexivity
        |simpl; lia|exact Hn|].
      change ((153 * 0 + 2) `div` 5) with 0. change (0 `div` 4) with 0.
      change (0 `div` 100) with 0. lia.
Qed.

(** A month has 28 to 31 days. *)
Lemma to_timestamp_step p :
  28 ≤ dt.to_timestamp (p + 1) - dt.to_timestamp p ≤ 31.
Proof.
  pose proof (Z.div_mod p 12 ltac:(lia)) as Hp.
  pose proof (Z.mod_pos_bound p 12 ltac:(lia)) as Hb.
  set (a := p `div` 12) in *. set (b := p `mod` 12) in *.
  assert (b = 0 ∨ b = 1 ∨ b = 2 ∨ b = 3 ∨ b = 4 ∨ b = 5 ∨ b = 6 ∨ b = 7 ∨ b = 8
          ∨ b = 9 ∨ b = 10 ∨ b = 11) as Hcases by lia.
  unfold dt.to_timestamp.
  assert ((p + 1) `div` 12 = if decide (b = 11) then a + 1 else a) as Hd.
  { destruct (decide (b = 11)); symmetry;
      [apply (Z.div_unique _ _ _ 0)|apply (Z.div_unique _ _ _ (b + 1))]; lia. }
  assert ((p + 1) `mod` 12 = if decide (b = 11) then 0 else b + 1) as Hm.
  { destruct (decide (b = 11)); symmetry;
      [apply (Z.mod_unique _ _ (a + 1))|apply (Z.mod_unique _ _ a)]; lia. }
  rewrite Hd, Hm. fold a b. clearbody a b. clear Hp Hb Hd Hm.
  unfold datetime.toordinal.
  destruct Hcases as [->|[->|[->|[->|[->|[->|[->|[->|[->|[->|[->| ->]]]]]]]]]]];
    simpl; Z.to_euclidean_division_equations; lia.
Qed.

End calendar_facts.


Lemma to_timestamp_lt p q : p < q → dt.to_timestamp p < dt.to_timestamp q.
Proof.
  intros Hpq. assert (∃ k : nat, q = p + 1 + Z.of_nat k) as [k ->]
    by (exists (Z.to_nat (q - p - 1)); lia).
  clear Hpq. induction k as [|k IH].
  - pose proof (to_timestamp_step p). rewrite Z.add_0_r. lia.
  - pose proof (to_timestamp_step (p + 1 + Z.of_nat k)).
    replace (p + 1 + Z.of_nat (S k)) with (p + 1 + Z.of_nat k + 1) by lia. lia.
Qed.

Lemma to_timestamp_le p q : p ≤ q → dt.to_timestamp p ≤ dt.to_timestamp q.
Proof.
  intros Hpq. destruct (decide (p = q)) as [->|Hne]; [lia|].
  pose proof (to_timestamp_lt p q). lia.
Qed.

(** The month of a day is the one month whose days include it. *)
Lemma to_period_unique n p :
  dt.to_timestamp p ≤ n < dt.to_timestamp (p + 1) → dt.to_period_M n = p.
Proof.
  intros Hn. pose proof (month_contains n) as Hm.
  destruct (Z.lt_trichotomy (dt.to_period_M n) p) as [Hlt|[Heq|Hgt]]; [|done|].
  - pose proof (to_timestamp_le (dt.to_period_M n + 1) p). lia.
  - pose proof (to_timestamp_le (p + 1) (dt.to_period_M n)). lia.
Qed.

Lemma to_period_mono n n' : n ≤ n' → dt.to_period_M n ≤ dt.to_period_M n'.
Proof.
  intros Hn. pose proof (month_contains n). pose proof (month_contains n').
  destruct (decide (dt.to_period_M n ≤ dt.to_period_M n')) as [|Hgt]; [done|].
  pose proof (to_timestamp_le (dt.to_period_M n' + 1) (dt.to_period_M n)). lia.
Qed.

(** ** Reductions of a Series *)

Section series_reductions.

Implicit Types (s : list Z) (v m : Z).

Lemma foldl_min_spec v s :
  let m := foldl Z.min v s in
  m ∈ v :: s ∧ ∀ x, x ∈ v :: s → m ≤ x.
Proof.
  revert v. induction s as [|w s IH]; intros v; simpl.
  - split; [apply list_elem_of_here|]. intros x ->%list_elem_of_singleton. lia.
  - destruct (IH (v `min` w)) as [Hin Hle]. split.
    + apply elem_of_cons in Hin as [Hin|Hin].
      * rewrite Hin. destruct (Z.min_spec v w) as [[_ ->]|[_ ->]].
        -- apply list_elem_of_here.
        -- apply list_elem_of_further, list_elem_of_here.
      * by do 2 apply list_elem_of_further.
    + intros x Hx.
      assert (foldl Z.min (v `min` w) s ≤ v `min` w)
        by apply Hle, list_elem_of_here.
      apply elem_of_cons in Hx as [->|Hx]; [lia|].
      apply elem_of_cons in Hx as [->|Hx]; [lia|].
      by apply Hle, list_elem_of_further.
Qed.

Lemma foldl_max_spec v s :
  let m := foldl Z.max v s in
  m ∈ v :: s ∧ ∀ x, x ∈ v :: s → x ≤ m.
Proof.
  revert v. induction s as [|w s IH]; intros v; simpl.
  - split; [apply list_elem_of_here|]. intros x ->%list_elem_of_singleton. lia.
  - destruct (IH (v `max` w)) as [Hin Hle]. split.
    + apply elem_of_cons in Hin as [Hin|Hin].
      * rewrite Hin. destruct (Z.max_spec v w) as [[_ ->]|[_ ->]].
        -- apply list_elem_of_further, list_elem_of_here.
        -- apply list_elem_of_here.
      * by do 2 apply list_elem_of_further.
    + intros x Hx.
      assert (v `max` w ≤ foldl Z.max (v `max` w) s)
        by apply Hle, list_elem_of_here.
      apply elem_of_cons in Hx as [->|Hx]; [lia|].
      apply elem_of_cons in Hx as [->|Hx]; [lia|].
      by apply Hle, list_elem_of_further.
Qed.

Lemma Series_min_spec s m :
  Series.min s = Some m → m ∈ s ∧ ∀ x, x ∈ s → m ≤ x.
Proof. destruct s as [|v s]; [done|]. intros [= <-]. apply foldl_min_spec. Qed.

Lemma Series_max_spec s m :
  Series.max s = Some m → m ∈ s ∧ ∀ x, x ∈ s → x ≤ m.
Proof. destruct s as [|v s]; [done|]. intros [= <-]. apply foldl_max_spec. Qed.

Lemma Series_min_is_Some s : s ≠ [] → is_Some (Series.min s).
Proof. destruct s; [done|]. by eexists. Qed.

Lemma Series_max_is_Some s : s ≠ [] → is_Some (Series.max s).
Proof. destruct s; [done|]. by eexists. Qed.

End series_reductions.

Section unique_facts.

Implicit Types (s seen : list string) (x : string).

Lemma elem_of_unique_from seen s x :
  x ∈ Series.unique_from seen s ↔ x ∈ s ∧ x ∉ seen.
Proof.
  revert seen. induction s as [|v s IH]; intros seen; simpl.
  - rewrite elem_of_nil. tauto.
  - case_decide as Hv.
    + rewrite IH, elem_of_cons. split; [tauto|].
      intros [[->|Hx] Hn]; [done|tauto].
    + rewrite !elem_of_cons, IH, elem_of_cons. split.
      * intros [->|[Hx Hn]]; [tauto|]. split; [tauto|]. tauto.
      * intros [[->|Hx] Hn]; [tauto|].
        destruct (decide (x = v)) as [->|Hne]; [tauto|]. right. tauto.
Qed.

Lemma unique_from_NoDup seen s : NoDup (Series.unique_from seen s).
Proof.
  revert seen. induction s as [|v s IH]; intros seen; simpl; [constructor|].
  case_decide; [done|]. apply NoDup_cons. split; [|done].
  rewrite elem_of_unique_from, elem_of_cons. tauto.
Qed.

Lemma unique_from_sublist seen s : Series.unique_from seen s `sublist_of` s.
Proof.
  revert seen. induction s as [|v s IH]; intros seen; simpl; [done|].
  case_decide; [by apply sublist_cons|by apply sublist_skip].
Qed.

(** The first of the distinct values is the first value. *)
Lemma unique_head s : head (Series.unique s) = head s.
Proof. by destruct s. Qed.

End unique_facts.

(** ** Filters of lists *)

Lemma filter_ext_elem_of {A} (P Q : A → Prop) `{∀ x, Decision (P x)}
    `{∀ x, Decision (Q x)} (l : list A) :
  (∀ x, x ∈ l → P x ↔ Q x) → filter P l = filter Q l.
Proof.
  induction l as [|x l IH]; intros HPQ; [done|].
  rewrite !filter_cons, IH by (intros y Hy; by apply HPQ, list_elem_of_further).
  destruct (HPQ x (list_elem_of_here _ _)). repeat case_decide; tauto.
Qed.

Lemma filter_sublist_impl {A} (P Q : A → Prop) `{∀ x, Decision (P x)}
    `{∀ x, Decision (Q x)} (l : list A) :
  (∀ x, x ∈ l → P x → Q x) → filter P l `sublist_of` filter Q l.
Proof.
  induction l as [|x l IH]; intros HPQ; [done|].
  assert (filter P l `sublist_of` filter Q l) as Hl
    by (apply IH; intros y Hy; by apply HPQ, list_elem_of_further).
  pose proof (HPQ x (list_elem_of_here _ _)).
  rewrite !filter_cons. repeat case_decide.
  - by apply sublist_skip.
  - tauto.
  - by apply sublist_cons.
  - done.
Qed.

(** ** The sidebar and the filter *)

(** X1.  On a table with a row the untouched widgets give a filter (first
    and last date of the table, ['Todos'], smallest and largest quantity and
    inventory) with which no message is shown, every row passes and the
    figures are computed. *)
Theorem initial_widgets_select_all (df : DataFrame) :
  df ≠ [] →
  ∃ w, valores_iniciales df = Some w ∧
       signals (apply df w) = [] ∧
       filtered_records (apply df w) = df ∧
       ∃ a, figures (apply df w) = Ok a.
Proof.
  intros Hne.
  assert (∀ c : Row → Z, pd.col c df ≠ []) as Hcol
    by (intros c; unfold pd.col; by destruct df).
  unfold valores_iniciales, min_date, max_date, min_venta, max_venta, min_inv,
    max_inv, pd.dt_date.
  destruct (Series_min_is_Some _ (Hcol Fecha)) as [d0 Hd0].
  destruct (Series_max_is_Some _ (Hcol Fecha)) as [d1 Hd1].
  destruct (Series_min_is_Some _ (Hcol Cantidad_Vendida)) as [v0 Hv0].
  destruct (Series_max_is_Some _ (Hcol Cantidad_Vendida)) as [v1 Hv1].
  destruct (Series_min_is_Some _ (Hcol Inventario)) as [i0 Hi0].
  destruct (Series_max_is_Some _ (Hcol Inventario)) as [i1 Hi1].
  rewrite Hd0, Hd1, Hv0, Hv1, Hi0, Hi1. simpl.
  apply Series_min_spec in Hd0 as [_ Hd0], Hv0 as [_ Hv0], Hi0 as [_ Hi0].
  apply Series_max_spec in Hd1 as [_ Hd1], Hv1 as [_ Hv1], Hi1 as [_ Hi1].
  assert (∀ (c : Row → Z) r, r ∈ df → c r ∈ pd.col c df) as Hin
    by (intros c r Hr; apply list_elem_of_fmap; eauto).
  eexists. split; [done|].
  assert (∀ r, r ∈ df → d0 ≤ Fecha r ≤ d1) as Hd
    by (intros r Hr; split; [apply Hd0|apply Hd1]; by apply Hin).
  rewrite apply_unfold. cbn [signals filtered_records figures].
  assert (df_filtered df (sidebar (mkSpec d0 d1 [Todos] (v0, v1) (i0, i1))).2 = df)
    as Hall.
  { rewrite df_filtered_filter. apply filter_all. intros r Hr.
    unfold passes, in_dates, in_ventas, in_inventario, in_categorias. simpl.
    split; [by apply Hd|].
    split; [split; [apply Hv0|apply Hv1]; by apply Hin|].
    split; [split; [apply Hi0|apply Hi1]; by apply Hin|].
    right. apply list_elem_of_here. }
  split_and!.
  - unfold sidebar, check_dates, check_categorias. simpl.
    destruct df as [|r df']; [done|].
    specialize (Hd r (list_elem_of_here _ _)).
    rewrite decide_False by lia. done.
  - done.
  - rewrite Hall. by apply aggregates_nonempty.
Qed.

Lemma initial_widgets_select_all_witness :
  ejemplo_df ≠ [] ∧
  valores_iniciales ejemplo_df = Some filtro_todo ∧
  filtered_records (apply ejemplo_df filtro_todo) = ejemplo_df.
Proof.
  assert (ejemplo_df ≠ []) as Hne by done.
  split; [exact Hne|].
  destruct (initial_widgets_select_all ejemplo_df Hne) as (w & Hw & _ & Hall & _).
  vm_compute in Hw. injection Hw as <-.
  split; [reflexivity|exact Hall].
Defined.


(** X3.  Selecting every category of the table, with or without ['Todos'],
    filters as ['Todos'] alone does. *)
Theorem all_categories_is_todos (df : DataFrame) (w : FilterSpec) :
  (∀ c, c ∈ Series.unique (pd.col Repuesto df) → c ∈ categoria_seleccionada w) →
  filtered_records (apply df w)
  = filtered_records
      (apply df (mkSpec (start_date w) (end_date w) [Todos] (rango_ventas w)
                   (rango_inventario w))).
Proof.
  intros Hall. rewrite !apply_unfold. simpl. rewrite !df_filtered_filter.
  apply filter_ext_elem_of. intros r Hr.
  unfold passes, in_dates, in_ventas, in_inventario, in_categorias.
  destruct (sidebar_spec w) as (-> & -> & -> & -> & ->). simpl.
  assert (Repuesto r ∈ categoria_seleccionada w) as Hsel.
  { apply Hall. unfold Series.unique. rewrite elem_of_unique_from.
    split; [|apply not_elem_of_nil]. apply list_elem_of_fmap. eauto. }
  assert (Todos ∈ [Todos]) by apply list_elem_of_here.
  destruct (categoria_seleccionada w); [by apply elem_of_nil in Hsel|]. tauto.
Qed.

Lemma all_categories_is_todos_witness :
  filtered_records
    (apply ejemplo_df (mkSpec 738521 738522 ["Filtro"; "Aceite"] (5, 10) (30, 50)))
  = filtered_records (apply ejemplo_df filtro_todo).
Proof.
  apply (all_categories_is_todos ejemplo_df
           (mkSpec 738521 738522 ["Filtro"; "Aceite"] (5, 10) (30, 50))).
  intros c Hc. vm_compute in Hc. exact Hc.
Defined.

(** X4.  A narrower filter keeps a subsequence of what a wider one keeps:
    dates and ranges inside those of the wider filter, and categories among
    its categories or the wider filter on ['Todos']. *)
Theorem narrower_filter_sublist (df : DataFrame) (s1 s2 : FilterSpec) :
  start_date s2 ≤ start_date s1 → end_date s1 ≤ end_date s2 →
  (rango_ventas s2).1 ≤ (rango_ventas s1).1 →
  (rango_ventas s1).2 ≤ (rango_ventas s2).2 →
  (rango_inventario s2).1 ≤ (rango_inventario s1).1 →
  (rango_inventario s1).2 ≤ (rango_inventario s2).2 →
  (Todos ∈ categoria_seleccionada s2 ∨
   ((Todos ∉ categoria_seleccionada s1) ∧
    (∀ c, c ∈ categoria_seleccionada s1 → c ∈ categoria_seleccionada s2))) →
  df_filtered df s1 `sublist_of` df_filtered df s2.
Proof.
  intros Hd0 Hd1 Hv0 Hv1 Hi0 Hi1 Hsel. rewrite !df_filtered_filter.
  apply filter_sublist_impl. intros r _.
  unfold passes, in_dates, in_ventas, in_inventario, in_categorias.
  intros (Hd & Hv & Hi & Hc). split_and!; try lia.
  destruct Hsel as [HT|[HT Hsub]]; [by right|].
  destruct Hc as [Hc|Hc]; [left; by apply Hsub|done].
Qed.

Lemma narrower_filter_sublist_witness :
  df_filtered ejemplo_df filtro_vacio `sublist_of` df_filtered ejemplo_df filtro_todo.
Proof.
  apply (narrower_filter_sublist ejemplo_df filtro_vacio filtro_todo);
    try (simpl; lia).
  left. apply list_elem_of_here.
Defined.

(** X5.  Filtering a filtered table: with the same filter nothing changes,
    with another filter the order of the two does not matter, and what is
    left is what passes both. *)
Theorem filter_twice (df : DataFrame) (s1 s2 : FilterSpec) :
  df_filtered (df_filtered df s1) s1 = df_filtered df s1 ∧
  df_filtered (df_filtered df s1) s2 = df_filtered (df_filtered df s2) s1 ∧
  ∀ r, r ∈ df_filtered (df_filtered df s1) s2
       ↔ r ∈ df_filtered df s1 ∧ r ∈ df_filtered df s2.
Proof.
  rewrite !df_filtered_filter, !list_filter_filter. split_and!.
  - apply list_filter_iff. tauto.
  - apply list_filter_iff. tauto.
  - intros r. rewrite !list_elem_of_filter. tauto.
Qed.

(** X6.  The run has its figures exactly when some row passes the filter;
    when none does it stops with the [ValueError] of [idxmax]. *)
Theorem figures_iff_rows (df : DataFrame) (w : FilterSpec) :
  ((∃ a, figures (apply df w) = Ok a) ↔ filtered_records (apply df w) ≠ []) ∧
  (figures (apply df w)
   = Raise (ValueError "attempt to get argmax of an empty sequence")
   ↔ filtered_records (apply df w) = []).
Proof.
  rewrite apply_unfold. simpl.
  destruct (df_filtered df (sidebar w).2) as [|r dff] eqn:E.
  - split; split; try done. by intros [a Ha].
  - destruct (aggregates_nonempty (r :: dff)) as [a Ha]; [done|].
    rewrite Ha. split; split; try done. eauto.
Qed.

(** ** The cards and the charts *)

Lemma string_key_lt_compare (a b : string) : key_lt a b → String.compare a b = Lt.
Proof.
  intros [Hle Hne]. simpl in Hle. unfold String.leb in Hle.
  destruct (String.compare a b) eqn:E; [|done|done].
  by apply String.compare_eq_iff in E.
Qed.

Lemma exact_sum_bounds (lo hi : Z) (s : list Z) :
  Forall (fun v => lo ≤ v ≤ hi) s →
  lo * Z.of_nat (length s) ≤ pd.exact_sum s ≤ hi * Z.of_nat (length s).
Proof. induction 1 as [|v s Hv _ IH]; simpl; lia. Qed.

Lemma wrap64_small (z : Z) : - 2 ^ 63 ≤ z < 2 ^ 63 → pd.wrap64 z = z.
Proof. intros Hz. unfold pd.wrap64. rewrite Z.mod_small; lia. Qed.

Lemma mean_nonempty (s : list Z) :
  s ≠ [] →
  pd.mean s = pd.Quot (pd.exact_sum s) (Pos.of_nat (length s)) ∧
  Z.pos (Pos.of_nat (length s)) = Z.of_nat (length s).
Proof.
  destruct s as [|v s]; [done|]. intros _. split; [done|].
  rewrite <- positive_nat_Z, Nat2Pos.id; done.
Qed.

(** The label [idxmax] returns is a label of the Series. *)
Lemma idxmax_elem_of {K : Type} `{KeyOrder K} (s : list (K * Z)) (k : K) :
  pd.idxmax s = Ok k → k ∈ s.*1.
Proof.
  intros Hk. destruct (decide (s = [])) as [->|Hne]; [done|].
  destruct (idxmax_first s Hne) as (k' & v & pre & post & Hk' & -> & _).
  assert (k' = k) as -> by congruence.
  rewrite fmap_app. apply elem_of_app. right. apply list_elem_of_here.
Qed.

(** X7.  The inventories by category of the pie chart add up to the total
    inventory of the third card, for every filtered table.  Both sides are
    int64 sums. *)
Theorem inventory_totals_sum (df : DataFrame) (s : FilterSpec) :
  pd.sum (inventario_por_categoria (df_filtered df s)).*2
  = inventario_total (df_filtered df s).
Proof. apply sum_groupby_sum. Qed.

(** X8.  The table of the bar chart holds every category of the filtered
    table once, with its summed quantity, the larger sums first. *)
Theorem ventas_por_categoria_descending (dff : DataFrame) :
  let v := ventas_por_categoria dff in
  StronglySorted (fun x y => y.2 ≤ x.2) v ∧
  NoDup v.*1 ∧
  ∀ c q, (c, q) ∈ v ↔ c ∈ pd.col Repuesto dff ∧ q = ventas_de_categoria dff c.
Proof.
  intros v. unfold ventas_por_categoria in v.
  set (s := pd.groupby_sum Repuesto Cantidad_Vendida dff) in v.
  assert (StronglySorted key_lt s.*1) as Hidx.
  { unfold s. rewrite groupby_sum_index. apply group_keys_sorted. }
  unfold v. clear v. rewrite (sort_values_desc_stable s Hidx).
  set (f := fun kv : string * Z => - kv.2 - 1).
  assert (pd.stable_sort_on f s ≡ₚ s) as Hperm
    by apply stable_sort_on_Permutation.
  split_and!.
  - eapply StronglySorted_impl; [|by apply (stable_sort_on_sorted key_lt f)].
    intros x y [Hlt|[Heq _]]; unfold f in *; lia.
  - rewrite Hperm. unfold s. rewrite groupby_sum_index. apply group_keys_NoDup.
  - intros c q. rewrite Hperm. apply elem_of_groupby_sum.
Qed.

(** X9.  The table of the pie chart holds every category of the filtered
    table once, with its summed inventory, in ascending order of the
    names. *)
Theorem inventario_por_categoria_index (dff : DataFrame) :
  let v := inventario_por_categoria dff in
  StronglySorted (fun a b => String.compare a b = Lt) v.*1 ∧
  ∀ c q, (c, q) ∈ v ↔
         c ∈ pd.col Repuesto dff ∧
         q = pd.sum (pd.col Inventario (filter (fun r => Repuesto r = c) dff)).
Proof.
  intros v. unfold v, inventario_por_categoria. split.
  - rewrite groupby_sum_index.
    eapply StronglySorted_impl; [|apply group_keys_sorted].
    apply string_key_lt_compare.
  - intros c q. apply elem_of_groupby_sum.
Qed.



(** X11.  The best-selling category on the card is the category of a
    filtered row; unless ['Todos'] is selected it is one of the selected
    categories. *)
Theorem top_category_selected (df : DataFrame) (s : FilterSpec) (k : string) :
  categoria_mas_vendida (df_filtered df s) = Ok k →
  (∃ r, r ∈ df_filtered df s ∧ Repuesto r = k) ∧
  (Todos ∉ categoria_seleccionada s → k ∈ categoria_seleccionada s).
Proof.
  intros Hk. apply idxmax_elem_of in Hk.
  rewrite groupby_sum_index, elem_of_group_keys in Hk.
  apply list_elem_of_fmap in Hk as (r & -> & Hr).
  split; [eauto|]. intros HT.
  rewrite df_filtered_filter in Hr. apply list_elem_of_filter in Hr as [Hp _].
  destruct Hp as (_ & _ & _ & [Hc|Hc]); done.
Qed.

Lemma top_category_selected_witness :
  categoria_mas_vendida
    (df_filtered ejemplo_df (mkSpec 738521 738522 ["Filtro"] (5, 10) (30, 50)))
  = Ok "Filtro" ∧
  "Filtro" ∈ ["Filtro"].
Proof.
  assert (categoria_mas_vendida
            (df_filtered ejemplo_df
               (mkSpec 738521 738522 ["Filtro"] (5, 10) (30, 50)))
          = Ok "Filtro") as Hk by reflexivity.
  split; [exact Hk|].
  apply (top_category_selected _ _ _ Hk).
  apply (bool_decide_unpack _). by vm_compute.
Defined.

(** ** The table of lines 8-19 *)

Lemma DataFrame_of_cols fecha repuesto cantidad inventario df :
  DataFrame_of fecha repuesto cantidad inventario = Ok df →
  pd.col Fecha df = fecha ∧ pd.col Repuesto df = repuesto ∧
  pd.col Cantidad_Vendida df = cantidad ∧ pd.col Inventario df = inventario.
Proof.
  unfold DataFrame_of. case_decide as Hlen; [|done]. intros [= <-].
  destruct Hlen as (H1 & H2 & H3). unfold pd.col.
  revert repuesto cantidad inventario H1 H2 H3.
  induction fecha as [|f fecha IH]; intros [|r rs] [|c cs] [|i ivs] H1 H2 H3;
    simplify_eq/=; [done|].
  destruct (IH rs cs ivs) as (E1 & E2 & E3 & E4); [done..|].
  by rewrite E1, E2, E3, E4.
Qed.

Lemma length_fechas : length fechas = n.
Proof. reflexivity. Qed.

Lemma elem_of_fechas d :
  d ∈ fechas ↔ datetime.toordinal 2023 1 1 ≤ d ≤ datetime.toordinal 2023 12 31.
Proof.
  unfold fechas, date_range. rewrite elem_of_seqZ.
  change (datetime.toordinal 2023 1 1) with 738521.
  change (datetime.toordinal 2023 12 31) with 738885. lia.
Qed.

(** What every table of lines 12-19 has: a row for each day of 2023, in
    order, and the values of each row within what the draws promise. *)
Lemma generado_rows df :
  generado df →
  length df = n ∧ pd.col Fecha df = fechas ∧
  Forall (fun r => Repuesto r ∈ repuestos ∧ 1 ≤ Cantidad_Vendida r < 20
                   ∧ 20 ≤ Inventario r < 100) df.
Proof.
  intros (rep & cant & inv & _ & Hrep & _ & Hcant & _ & Hinv & Hdf).
  destruct (DataFrame_of_cols _ _ _ _ _ Hdf) as (E1 & E2 & E3 & E4).
  split_and!.
  - rewrite <- (length_fmap Fecha df).
    change (Fecha <$> df) with (pd.col Fecha df). by rewrite E1.
  - done.
  - rewrite <- E2 in Hrep. rewrite <- E3 in Hcant. rewrite <- E4 in Hinv.
    unfold pd.col in Hrep, Hcant, Hinv.
    rewrite Forall_fmap in Hrep. rewrite Forall_fmap in Hcant.
    rewrite Forall_fmap in Hinv.
    rewrite Forall_forall in Hrep. rewrite Forall_forall in Hcant.
    rewrite Forall_forall in Hinv.
    apply Forall_forall. intros r Hr. split_and!.
    + by apply Hrep.
    + by apply Hcant.
    + by apply Hcant.
    + by apply Hinv.
    + by apply Hinv.
Qed.

(** The same of the rows a filter keeps. *)
Lemma generado_filtered df s :
  generado df →
  (length (df_filtered df s) ≤ n)%nat ∧
  NoDup (pd.col Fecha (df_filtered df s)) ∧
  Forall (fun r => Fecha r ∈ fechas ∧ Repuesto r ∈ repuestos
                   ∧ 1 ≤ Cantidad_Vendida r < 20
                   ∧ 20 ≤ Inventario r < 100) (df_filtered df s).
Proof.
  intros Hg. destruct (generado_rows df Hg) as (Hlen & Hfe & Hrows).
  rewrite df_filtered_filter.
  assert (filter (passes s) df `sublist_of` df) as Hsub by apply sublist_filter.
  split_and!.
  - rewrite <- Hlen. by apply sublist_length.
  - apply (sublist_NoDup _ (pd.col Fecha df)).
    + rewrite Hfe. apply NoDup_seqZ.
    + unfold pd.col. by apply fmap_sublist.
  - apply Forall_forall. intros r Hr.
    apply (elem_of_sublist _ _ _ Hr) in Hsub.
    rewrite Forall_forall in Hrows. split; [|by apply Hrows].
    rewrite <- Hfe. unfold pd.col. apply list_elem_of_fmap. eauto.
Qed.

Lemma ejemplo_generado_ok : generado ejemplo_generado.
Proof.
  exists (pd.col Repuesto ejemplo_generado),
         (pd.col Cantidad_Vendida ejemplo_generado),
         (pd.col Inventario ejemplo_generado).
  split_and!.
  - reflexivity.
  - apply (bool_decide_unpack _). by vm_compute.
  - reflexivity.
  - apply (bool_decide_unpack _). by vm_compute.
  - reflexivity.
  - apply (bool_decide_unpack _). by vm_compute.
  - by vm_compute.
Qed.

(** X12.  Line 19 builds the table whatever is drawn: 2023 has [n] = 365
    days, so the column of dates is as long as three columns of [n] draws
    and [pd.DataFrame] does not refuse them.  The table has one row for each
    day from 2023-01-01 to 2023-12-31, in order, and the columns are the
    arrays drawn. *)
Theorem table_is_built (repuesto : list string) (cantidad inventario : list Z) :
  length repuesto = n → length cantidad = n → length inventario = n →
  ∃ df, DataFrame_of fechas repuesto cantidad inventario = Ok df ∧
        length df = 365%nat ∧
        pd.col Fecha df
        = seqZ (datetime.toordinal 2023 1 1) 365 ∧
        last (pd.col Fecha df) = Some (datetime.toordinal 2023 12 31) ∧
        pd.col Repuesto df = repuesto ∧
        pd.col Cantidad_Vendida df = cantidad ∧
        pd.col Inventario df = inventario.
Proof.
  intros Hr Hc Hi.
  destruct (DataFrame_of fechas repuesto cantidad inventario) as [df|e] eqn:Hdf.
  - destruct (DataFrame_of_cols _ _ _ _ _ Hdf) as (E1 & E2 & E3 & E4).
    exists df. split; [done|]. split_and!; try done.
    + rewrite <- (length_fmap Fecha df).
      change (Fecha <$> df) with (pd.col Fecha df). by rewrite E1.
    + by rewrite E1.
  - unfold DataFrame_of in Hdf. rewrite decide_True in Hdf; [done|].
    by rewrite Hr, Hc, Hi, length_fechas.
Qed.

Lemma table_is_built_witness :
  ∃ df, DataFrame_of fechas (pd.col Repuesto ejemplo_generado)
          (pd.col Cantidad_Vendida ejemplo_generado)
          (pd.col Inventario ejemplo_generado) = Ok df ∧
        length df = 365%nat.
Proof.
  destruct (table_is_built (pd.col Repuesto ejemplo_generado)
              (pd.col Cantidad_Vendida ejemplo_generado)
              (pd.col Inventario ejemplo_generado))
    as (df & Hdf & Hlen & _); [reflexivity..|].
  exists df. split; [exact Hdf|exact Hlen].
Defined.

(** X13.  On a table of lines 12-19 no filter brings the total of the first
    card to the goal of the gauge: the total is the exact sum of the
    quantities (the int64 sum does not wrap), it lies between the number of
    filtered rows and 19 times that number, and 19 times 365 is less than
    [meta_ventas]. *)
Theorem generated_total_below_goal (df : DataFrame) (s : FilterSpec) :
  generado df →
  let dff := df_filtered df s in
  ventas_totales dff = pd.exact_sum (pd.col Cantidad_Vendida dff) ∧
  Z.of_nat (length dff) ≤ ventas_totales dff ≤ 19 * Z.of_nat (length dff) ∧
  ventas_totales dff < meta_ventas.
Proof.
  intros Hg dff. destruct (generado_filtered df s Hg) as (Hlen & _ & Hrows).
  fold dff in Hlen, Hrows. unfold n in Hlen.
  assert (1 * Z.of_nat (length (pd.col Cantidad_Vendida dff))
          ≤ pd.exact_sum (pd.col Cantidad_Vendida dff)
          ≤ 19 * Z.of_nat (length (pd.col Cantidad_Vendida dff))) as Hb.
  { apply exact_sum_bounds. unfold pd.col. apply Forall_fmap.
    eapply Forall_impl; [exact Hrows|]. intros r (_ & _ & Hq & _). simpl. lia. }
  assert (length (pd.col Cantidad_Vendida dff) = length dff) as Hl
    by apply length_fmap.
  rewrite Hl in Hb.
  assert (ventas_totales dff = pd.exact_sum (pd.col Cantidad_Vendida dff)) as E.
  { unfold ventas_totales. rewrite sum_exact. apply wrap64_small. lia. }
  unfold meta_ventas. rewrite E. lia.
Qed.

Lemma generated_total_below_goal_witness :
  ventas_totales (df_filtered ejemplo_generado
                    (mkSpec 738521 738885 [Todos] (1, 19) (20, 99)))
  < meta_ventas.
Proof.
  apply (generated_total_below_goal ejemplo_generado
           (mkSpec 738521 738885 [Todos] (1, 19) (20, 99)) ejemplo_generado_ok).
Defined.

(** X14.  On a table of lines 12-19 with a row left by the filter the four
    cards are computed and fit together: the best-selling category is one of
    the five names, the total inventory is the exact sum of the inventories,
    between 20 and 99 times the number of filtered rows, and the mean
    inventory is that total divided by the number of filtered rows. *)
Theorem generated_cards (df : DataFrame) (s : FilterSpec) :
  generado df → df_filtered df s ≠ [] →
  let dff := df_filtered df s in
  ∃ c den,
    kpis dff = Ok (mkKPIs (ventas_totales dff) c (inventario_total dff)
                     (pd.Quot (inventario_total dff) den)) ∧
    c ∈ repuestos ∧
    Z.pos den = Z.of_nat (length dff) ∧
    inventario_total dff = pd.exact_sum (pd.col Inventario dff) ∧
    20 * Z.pos den ≤ inventario_total dff ≤ 99 * Z.pos den.
Proof.
  intros Hg Hne dff. destruct (generado_filtered df s Hg) as (Hlen & _ & Hrows).
  fold dff in Hlen, Hrows, Hne. unfold n in Hlen.
  assert (pd.col Inventario dff ≠ []) as Hcol
    by (unfold pd.col; by destruct dff).
  destruct (mean_nonempty _ Hcol) as [Hmean Hden].
  assert (length (pd.col Inventario dff) = length dff) as Hl
    by apply length_fmap.
  assert (20 * Z.of_nat (length (pd.col Inventario dff))
          ≤ pd.exact_sum (pd.col Inventario dff)
          ≤ 99 * Z.of_nat (length (pd.col Inventario dff))) as Hb.
  { apply exact_sum_bounds. unfold pd.col. apply Forall_fmap.
    eapply Forall_impl; [exact Hrows|]. intros r (_ & _ & _ & Hi). simpl. lia. }
  assert (inventario_total dff = pd.exact_sum (pd.col Inventario dff)) as E.
  { unfold inventario_total. rewrite sum_exact. apply wrap64_small. lia. }
  destruct (categoria_mas_vendida dff) as [c|e] eqn:Hc.
  - exists c, (Pos.of_nat (length (pd.col Inventario dff))). split_and!.
    + unfold kpis. rewrite Hc. simpl. unfold promedio_inventario.
      by rewrite Hmean, E.
    + unfold categoria_mas_vendida in Hc. apply idxmax_elem_of in Hc.
      rewrite groupby_sum_index, elem_of_group_keys in Hc.
      apply list_elem_of_fmap in Hc as (r & -> & Hr).
      rewrite Forall_forall in Hrows. by apply Hrows.
    + by rewrite Hden, Hl.
    + done.
    + rewrite Hden, E. lia.
    + rewrite Hden, E. lia.
  - exfalso. unfold categoria_mas_vendida in Hc.
    pose proof (groupby_sum_nonempty Repuesto Cantidad_Vendida dff Hne) as Hs.
    unfold pd.idxmax in Hc.
    by destruct (pd.groupby_sum Repuesto Cantidad_Vendida dff).
Qed.

Lemma generated_cards_witness :
  ∃ c den,
    kpis (df_filtered ejemplo_generado
            (mkSpec 738521 738885 [Todos] (1, 19) (20, 99)))
    = Ok (mkKPIs 3660 c 22295 (pd.Quot 22295 den)) ∧
    c ∈ repuestos ∧ Z.pos den = 365.
Proof.
  destruct (generated_cards ejemplo_generado
              (mkSpec 738521 738885 [Todos] (1, 19) (20, 99))
              ejemplo_generado_ok)
    as (c & den & Hk & Hc & Hden & _); [by vm_compute|].
  exists c, den. split; [exact Hk|]. split; [exact Hc|exact Hden].
Defined.

(** ** The five best days *)

Section top_5_facts.

Lemma top_5_dias_take dff :
  top_5_dias dff
  = take 5 (pd.stable_sort_on (fun kv => - kv.2 - 1)
              (pd.groupby_sum Fecha Cantidad_Vendida dff)).
Proof.
  apply nlargest_take. rewrite groupby_sum_index. apply group_keys_sorted.
Qed.

(** Where no two rows share a date, the group of a row's date is the row. *)
Lemma group_single (dff : DataFrame) (r : Row) :
  NoDup (pd.col Fecha dff) → r ∈ dff → pd.group Fecha (Fecha r) dff = [r].
Proof.
  unfold pd.group, pd.col.
  induction dff as [|r' dff IH]; csimpl; intros Hnd Hr.
  - by apply elem_of_nil in Hr.
  - apply NoDup_cons in Hnd as [Hnot Hnd]. rewrite filter_cons.
    apply elem_of_cons in Hr as [->|Hr].
    + rewrite decide_True by done. f_equal. apply filter_none.
      intros r'' Hr'' E. apply Hnot. rewrite <- E.
      apply list_elem_of_fmap. eauto.
    + rewrite decide_False; [by apply IH|].
      intros E. apply Hnot. rewrite E. apply list_elem_of_fmap. eauto.
Qed.

Lemma group_keys_length_NoDup {K : Type} `{KeyOrder K} (l : list K) :
  NoDup l → length (pd.group_keys l) = length l.
Proof.
  intros Hnd. apply Permutation_length, NoDup_Permutation;
    [apply group_keys_NoDup|done|intros x; apply elem_of_group_keys].
Qed.

End top_5_facts.

(** X15.  On a table of lines 12-19 each day has one row, so the table of
    the last chart holds rows of the filtered table: five of them, or all
    when fewer are left, each with its own date and quantity, and no row
    left out has a larger quantity than a row shown. *)
Theorem generated_top_5_rows (df : DataFrame) (s : FilterSpec) :
  generado df →
  let dff := df_filtered df s in
  let t := top_5_dias dff in
  length t = (5 `min` length dff)%nat ∧
  (∀ d q, (d, q) ∈ t → ∃ r, r ∈ dff ∧ Fecha r = d ∧ Cantidad_Vendida r = q) ∧
  (∀ r, r ∈ dff → (Fecha r, Cantidad_Vendida r) ∉ t →
        ∀ d q, (d, q) ∈ t → Cantidad_Vendida r ≤ q).
Proof.
  intros Hg dff t. destruct (generado_filtered df s Hg) as (_ & Hnd & Hrows).
  fold dff in Hnd, Hrows. rewrite Forall_forall in Hrows.
  unfold t. clear t. rewrite top_5_dias_take.
  set (gs := pd.groupby_sum Fecha Cantidad_Vendida dff).
  set (f := fun kv : Z * Z => - kv.2 - 1).
  assert (pd.stable_sort_on f gs ≡ₚ gs) as Hperm
    by apply stable_sort_on_Permutation.
  assert (∀ r, r ∈ dff → (Fecha r, Cantidad_Vendida r) ∈ gs) as Hin.
  { intros r Hr. apply elem_of_groupby_sum. split.
    - unfold pd.col. apply list_elem_of_fmap. eauto.
    - rewrite (group_single dff r Hnd Hr). unfold pd.col, pd.sum. simpl.
      symmetry. apply wrap64_small. destruct (Hrows r Hr) as (_ & _ & Hq & _).
      lia. }
  assert (∀ d q, (d, q) ∈ gs →
                 ∃ r, r ∈ dff ∧ Fecha r = d ∧ Cantidad_Vendida r = q) as Hout.
  { intros d q Hdq. apply elem_of_groupby_sum in Hdq as [Hd ->].
    unfold pd.col in Hd. apply list_elem_of_fmap in Hd as (r & -> & Hr).
    exists r. split; [done|]. split; [done|].
    rewrite (group_single dff r Hnd Hr). unfold pd.col, pd.sum. simpl.
    symmetry. apply wrap64_small. destruct (Hrows r Hr) as (_ & _ & Hq & _).
    lia. }
  split_and!.
  - rewrite length_take, Hperm. f_equal.
    rewrite <- (length_fmap fst gs). unfold gs. rewrite groupby_sum_index.
    rewrite (group_keys_length_NoDup _ Hnd). apply length_fmap.
  - intros d q Hdq. apply Hout. rewrite <- Hperm. by apply (subseteq_take 5).
  - intros r Hr Hnot d q Hdq.
    assert (StronglySorted (before key_lt f) (pd.stable_sort_on f gs))
      as Hsorted.
    { apply stable_sort_on_sorted. unfold gs. rewrite groupby_sum_index.
      apply group_keys_sorted. }
    pose proof (Hin r Hr) as Hr'. rewrite <- Hperm in Hr'.
    rewrite <- (take_drop 5 (pd.stable_sort_on f gs)) in Hr', Hsorted.
    apply elem_of_app in Hr' as [Hr'|Hr']; [done|].
    pose proof (StronglySorted_app_1_elem_of _ _ _ _ _ Hsorted Hdq Hr')
      as [Hlt|[Heq _]]; unfold f in *; simpl in *; lia.
Qed.

Lemma generated_top_5_rows_witness :
  length (top_5_dias (df_filtered ejemplo_generado
                        (mkSpec 738521 738885 [Todos] (1, 19) (20, 99))))
  = 5%nat.
Proof.
  apply (generated_top_5_rows ejemplo_generado
           (mkSpec 738521 738885 [Todos] (1, 19) (20, 99)) ejemplo_generado_ok).
Defined.

(** ** The sales by month *)

Section month_facts.

Lemma Z_key_lt (a b : Z) : key_lt a b → a < b.
Proof. intros [Hle Hne]. simpl in Hle. apply Z.leb_le in Hle. lia. Qed.

Lemma to_period_iff n p :
  dt.to_period_M n = p ↔ dt.to_timestamp p ≤ n < dt.to_timestamp (p + 1).
Proof.
  split; [intros <-; apply month_contains|apply to_period_unique].
Qed.

(** The rows of one month are the rows dated from its first day up to the
    first day of the next month. *)
Lemma group_month (dff : DataFrame) (p : Z) :
  pd.group (fun r => dt.to_period_M (Fecha r)) p dff
  = filter (fun r => dt.to_timestamp p ≤ Fecha r < dt.to_timestamp (p + 1)) dff.
Proof.
  unfold pd.group. apply filter_ext_elem_of. intros r _. apply to_period_iff.
Qed.

Lemma ventas_mensuales_index (dff : DataFrame) :
  (ventas_mensuales dff).*1
  = dt.to_timestamp <$>
      pd.group_keys (pd.col (fun r => dt.to_period_M (Fecha r)) dff).
Proof.
  unfold ventas_mensuales.
  rewrite <- (groupby_sum_index _ Cantidad_Vendida).
  rewrite <- !list_fmap_compose. by apply list_fmap_ext.
Qed.

Lemma ventas_mensuales_values (dff : DataFrame) :
  (ventas_mensuales dff).*2
  = (pd.groupby_sum (fun r => dt.to_period_M (Fecha r)) Cantidad_Vendida dff).*2.
Proof.
  unfold ventas_mensuales. rewrite <- !list_fmap_compose.
  by apply list_fmap_ext.
Qed.

Lemma elem_of_ventas_mensuales (dff : DataFrame) (L q : Z) :
  (L, q) ∈ ventas_mensuales dff ↔
    ∃ p, L = dt.to_timestamp p ∧
         p ∈ pd.col (fun r => dt.to_period_M (Fecha r)) dff ∧
         q = pd.sum (pd.col Cantidad_Vendida
               (filter (fun r => L ≤ Fecha r < dt.to_timestamp (p + 1)) dff)).
Proof.
  unfold ventas_mensuales. rewrite list_elem_of_fmap. split.
  - intros ([p v] & [= -> ->] & Hin). apply elem_of_groupby_sum in Hin as [Hp ->].
    exists p. simpl. by rewrite group_month.
  - intros (p & -> & Hp & ->). exists (p, pd.sum (pd.col Cantidad_Vendida
      (filter (fun r => dt.to_timestamp p ≤ Fecha r < dt.to_timestamp (p + 1))
         dff))).
    split; [done|]. apply elem_of_groupby_sum. split; [done|].
    by rewrite group_month.
Qed.

End month_facts.

(** X16.  The month of a day and the first day of a month, as line 179
    composes them: a day belongs to month [p] exactly when it lies from the
    first day of [p] up to the first day of [p + 1]; the month of the first
    day of a month is that month; and the label a day is charted under is the
    latest first day of a month that is not after the day. *)
Theorem month_of_day_round_trip (d p : Z) :
  (dt.to_period_M d = p ↔ dt.to_timestamp p ≤ d < dt.to_timestamp (p + 1)) ∧
  dt.to_period_M (dt.to_timestamp p) = p ∧
  dt.to_timestamp (dt.to_period_M d) ≤ d ∧
  (dt.to_timestamp p ≤ d → dt.to_timestamp p ≤ dt.to_timestamp (dt.to_period_M d)).
Proof.
  split_and!.
  - apply to_period_iff.
  - apply to_period_iff. pose proof (to_timestamp_lt p (p + 1)). lia.
  - apply month_contains.
  - intros Hd. apply to_timestamp_le.
    destruct (decide (p ≤ dt.to_period_M d)) as [|Hgt]; [done|].
    pose proof (month_contains d).
    pose proof (to_timestamp_le (dt.to_period_M d + 1) p). lia.
Qed.

(** X17.  The table of the line chart holds one point for every month with a
    filtered row, in order of time; the point is labelled with the first day
    of the month and holds the summed quantity of the rows dated in that
    month. *)
Theorem ventas_mensuales_months (dff : DataFrame) :
  let v := ventas_mensuales dff in
  StronglySorted Z.lt v.*1 ∧
  ∀ L q, (L, q) ∈ v ↔
    ∃ p, L = dt.to_timestamp p ∧
         (∃ r, r ∈ dff ∧ L ≤ Fecha r < dt.to_timestamp (p + 1)) ∧
         q = pd.sum (pd.col Cantidad_Vendida
               (filter (fun r => L ≤ Fecha r < dt.to_timestamp (p + 1)) dff)).
Proof.
  intros v. unfold v. split.
  - rewrite ventas_mensuales_index.
    eapply StronglySorted_fmap; [|apply group_keys_sorted].
    intros x y Hxy. apply to_timestamp_lt. by apply Z_key_lt.
  - intros L q. rewrite elem_of_ventas_mensuales.
    split; intros (p & -> & Hp & ->); exists p; (split; [done|]);
      (split; [|done]).
    + unfold pd.col in Hp. apply list_elem_of_fmap in Hp as (r & -> & Hr).
      exists r. split; [done|]. apply month_contains.
    + destruct Hp as (r & Hr & Hd). unfold pd.col. apply list_elem_of_fmap.
      exists r. split; [|done]. symmetry. by apply to_period_unique.
Qed.

(** X18.  The monthly totals of the line chart add up to the total of the
    first card, for every filtered table.  Both sides are int64 sums. *)
Theorem monthly_totals_sum (df : DataFrame) (s : FilterSpec) :
  pd.sum (ventas_mensuales (df_filtered df s)).*2
  = ventas_totales (df_filtered df s).
Proof. rewrite ventas_mensuales_values. apply sum_groupby_sum. Qed.

(** ** The months of a table of lines 8-19 *)

Lemma meses_2023 :
  dt.to_timestamp <$> seqZ 636 12
  = (fun m => datetime.toordinal 2023 m 1) <$> seqZ 1 12.
Proof. reflexivity. Qed.

Lemma to_period_fechas d : d ∈ fechas → dt.to_period_M d ∈ seqZ 636 12.
Proof.
  intros Hd. apply elem_of_fechas in Hd.
  change (datetime.toordinal 2023 1 1) with 738521 in Hd.
  change (datetime.toordinal 2023 12 31) with 738885 in Hd.
  pose proof (to_period_mono 738521 d ltac:(lia)) as H1.
  pose proof (to_period_mono d 738885 ltac:(lia)) as H2.
  change (dt.to_period_M 738521) with 636 in H1.
  change (dt.to_period_M 738885) with 647 in H2.
  apply elem_of_seqZ. lia.
Qed.

(** X19.  On a table of lines 12-19 the line chart has the twelve months of
    2023 when nothing is filtered out, and under any filter at most twelve
    points, each labelled with the first day of a month of 2023 and holding
    a total from 1 to 19 times 31. *)
Theorem generated_months (df : DataFrame) (s : FilterSpec) :
  generado df →
  (ventas_mensuales df).*1
  = (fun m => datetime.toordinal 2023 m 1) <$> seqZ 1 12 ∧
  let v := ventas_mensuales (df_filtered df s) in
  (length v ≤ 12)%nat ∧
  ∀ L q, (L, q) ∈ v →
         (∃ m, 1 ≤ m ≤ 12 ∧ L = datetime.toordinal 2023 m 1) ∧
         1 ≤ q ≤ 19 * 31.
Proof.
  intros Hg. destruct (generado_rows df Hg) as (_ & Hfe & _).
  destruct (generado_filtered df s Hg) as (_ & Hnd & Hrows).
  set (dff := df_filtered df s) in *. rewrite Forall_forall in Hrows.
  assert (∀ p, p ∈ pd.col (fun r => dt.to_period_M (Fecha r)) dff →
               p ∈ seqZ 636 12) as Hkeys.
  { intros p Hp. unfold pd.col in Hp.
    apply list_elem_of_fmap in Hp as (r & -> & Hr).
    apply to_period_fechas. by apply Hrows. }
  split; [|split].
  - rewrite ventas_mensuales_index.
    replace (pd.col (fun r => dt.to_period_M (Fecha r)) df)
      with (dt.to_period_M <$> fechas).
    + by vm_compute.
    + rewrite <- Hfe. unfold pd.col. by rewrite <- list_fmap_compose.
  - rewrite <- (length_fmap fst), ventas_mensuales_index, length_fmap.
    change 12%nat with (length (seqZ 636 12)).
    apply submseteq_length, NoDup_submseteq; [apply group_keys_NoDup|].
    intros p Hp. rewrite elem_of_group_keys in Hp. by apply Hkeys.
  - intros L q HLq. apply elem_of_ventas_mensuales in HLq as (p & -> & Hp & ->).
    split.
    + assert (dt.to_timestamp p ∈ dt.to_timestamp <$> seqZ 636 12) as Hin
        by (apply list_elem_of_fmap; exists p; split; [done|by apply Hkeys]).
      rewrite meses_2023 in Hin.
      apply list_elem_of_fmap in Hin as (m & Hm & Hin).
      apply elem_of_seqZ in Hin. exists m. split; [lia|done].
    + set (G := filter (fun r => dt.to_timestamp p ≤ Fecha r
                                  < dt.to_timestamp (p + 1)) dff).
      assert (G `sublist_of` dff) as Hsub by apply sublist_filter.
      assert (1 ≤ Z.of_nat (length G)) as Hone.
      { unfold pd.col in Hp. apply list_elem_of_fmap in Hp as (r & -> & Hr).
        assert (r ∈ G) as HrG.
        { apply list_elem_of_filter. split; [apply month_contains|done]. }
        destruct G; [by apply elem_of_nil in HrG|simpl; lia]. }
      assert (length G ≤ 31)%nat as Hmax.
      { rewrite <- (length_fmap Fecha G).
        change 31%nat with (Z.to_nat 31).
        rewrite <- (length_seqZ (dt.to_timestamp p) 31).
        apply submseteq_length, NoDup_submseteq.
        - apply (sublist_NoDup _ (pd.col Fecha dff)); [done|].
          unfold pd.col. by apply fmap_sublist.
        - intros d Hd. apply list_elem_of_fmap in Hd as (r & -> & Hr).
          apply list_elem_of_filter in Hr as [Hr _].
          pose proof (to_timestamp_step p). apply elem_of_seqZ. lia. }
      assert (1 * Z.of_nat (length (pd.col Cantidad_Vendida G))
              ≤ pd.exact_sum (pd.col Cantidad_Vendida G)
              ≤ 19 * Z.of_nat (length (pd.col Cantidad_Vendida G))) as Hb.
      { apply exact_sum_bounds. unfold pd.col.
        apply Forall_fmap, Forall_forall. intros r Hr.
        apply (elem_of_sublist _ _ _ Hr) in Hsub.
        destruct (Hrows r Hsub) as (_ & _ & Hq & _). simpl. lia. }
      assert (length (pd.col Cantidad_Vendida G) = length G) as Hl
        by apply length_fmap.
      rewrite Hl in Hb. rewrite sum_exact, wrap64_small; lia.
Qed.

Lemma generated_months_witness :
  (ventas_mensuales ejemplo_generado).*1
  = [738521; 738552; 738580; 738611; 738641; 738672;
     738702; 738733; 738764; 738794; 738825; 738855].
Proof.
  apply (generated_months ejemplo_generado
           (mkSpec 738521 738885 [Todos] (1, 19) (20, 99)) ejemplo_generado_ok).
Defined.

(** ** The options of the multiselect *)

Lemma unique_from_snoc seen s x :
  Series.unique_from seen (s ++ [x])
  = Series.unique_from seen s
    ++ (if decide (x ∈ seen ∨ x ∈ s) then [] else [x]).
Proof.
  revert seen. induction s as [|y s IH]; intros seen; simpl.
  - destruct (decide (x ∈ seen)) as [Hx|Hx].
    + rewrite decide_True; [done|by left].
    + rewrite decide_False; [done|].
      intros [?|Hnil]; [done|by apply elem_of_nil in Hnil].
  - destruct (decide (y ∈ seen)) as [Hy|Hy]; rewrite IH; simpl.
    + f_equal. apply decide_ext. rewrite elem_of_cons.
      split; [tauto|]. intros [?|[->|?]]; tauto.
    + do 2 f_equal. apply decide_ext. rewrite !elem_of_cons. tauto.
Qed.

(** X20.  The options of the multiselect are ['Todos'] followed by the
    categories of the table, each once, in the order in which they first
    occur: a row added at the end adds its category at the end of the
    options if the category is new, and changes nothing otherwise. *)
Theorem categorias_options (df : DataFrame) (r : Row) :
  let o := categorias df in
  head o = Some Todos ∧
  NoDup (tail o) ∧
  (∀ c, c ∈ o ↔ c = Todos ∨ ∃ r', r' ∈ df ∧ Repuesto r' = c) ∧
  categorias (df ++ [r])
  = if decide (Repuesto r ∈ pd.col Repuesto df) then o else o ++ [Repuesto r].
Proof.
  intros o. unfold o, categorias. split_and!.
  - done.
  - apply unique_from_NoDup.
  - intros c. rewrite elem_of_cons. unfold Series.unique.
    rewrite elem_of_unique_from. unfold pd.col. rewrite list_elem_of_fmap.
    split; (intros [?|Hc]; [by left|right]).
    + destruct Hc as [(r' & -> & Hr') _]. eauto.
    + destruct Hc as (r' & Hr' & <-). split; [eauto|]. apply not_elem_of_nil.
  - unfold pd.col, Series.unique. rewrite fmap_app. csimpl.
    rewrite unique_from_snoc.
    rewrite (decide_ext (Repuesto r ∈ [] ∨ Repuesto r ∈ Repuesto <$> df)
               (Repuesto r ∈ Repuesto <$> df)).
    + case_decide; [by rewrite app_nil_r|done].
    + split; [|by right]. intros [Hnil|?]; [by apply elem_of_nil in Hnil|done].
Qed.

(** X21.  On a table of lines 12-19 the multiselect offers distinct
    options, at most six of them: ['Todos'] and names among the five of
    line 14, each of which is the category of a row. *)
Theorem generated_options (df : DataFrame) :
  generado df →
  NoDup (categorias df) ∧
  (length (categorias df) ≤ 6)%nat ∧
  ∀ c, c ∈ categorias df →
       c = Todos ∨ (c ∈ repuestos ∧ ∃ r, r ∈ df ∧ Repuesto r = c).
Proof.
  intros Hg. destruct (generado_rows df Hg) as (_ & _ & Hrows).
  rewrite Forall_forall in Hrows.
  assert (∀ c, c ∈ Series.unique (pd.col Repuesto df) →
               c ∈ repuestos ∧ ∃ r, r ∈ df ∧ Repuesto r = c) as Hin.
  { intros c Hc. unfold Series.unique in Hc.
    apply elem_of_unique_from in Hc as [Hc _].
    unfold pd.col in Hc. apply list_elem_of_fmap in Hc as (r & -> & Hr).
    split; [by apply Hrows|eauto]. }
  assert (NoDup (categorias df)) as Hnd.
  { unfold categorias. apply NoDup_cons. split; [|apply unique_from_NoDup].
    intros HT. apply Hin in HT as [HT _]. revert HT.
    apply (bool_decide_unpack _). by vm_compute. }
  split_and!.
  - done.
  - change 6%nat with (length (Todos :: repuestos)).
    apply submseteq_length, NoDup_submseteq; [done|].
    intros c Hc. unfold categorias in Hc.
    apply elem_of_cons in Hc as [->|Hc]; [apply list_elem_of_here|].
    apply list_elem_of_further. by apply Hin.
  - intros c Hc. unfold categorias in Hc.
    apply elem_of_cons in Hc as [->|Hc]; [by left|right]. by apply Hin.
Qed.

Lemma generated_options_witness :
  NoDup (categorias ejemplo_generado) ∧
  categorias ejemplo_generado
  = ["Todos"; "Aceite"; "Bujía"; "Correa"; "Batería"; "Filtro"].
Proof.
  split; [|reflexivity].
  apply (generated_options ejemplo_generado ejemplo_generado_ok).
Defined.

(** ** The widgets on a table of lines 8-19 *)

(** X22.  On a table of lines 12-19 the untouched widgets stand at the
    first and the last day of 2023, at ['Todos'] and at the smallest and
    largest quantity and inventory drawn, which lie in [1, 20) and
    [20, 100). *)
Theorem generated_initial_widgets (df : DataFrame) :
  generado df →
  ∃ v0 v1 i0 i1,
    valores_iniciales df
    = Some (mkSpec (datetime.toordinal 2023 1 1) (datetime.toordinal 2023 12 31)
              [Todos] (v0, v1) (i0, i1)) ∧
    1 ≤ v0 ≤ v1 ∧ v1 < 20 ∧ 20 ≤ i0 ≤ i1 ∧ i1 < 100.
Proof.
  intros Hg. destruct (generado_rows df Hg) as (Hlen & Hfe & Hrows).
  rewrite Forall_forall in Hrows.
  assert (∀ c : Row → Z, pd.col c df ≠ []) as Hcol
    by (intros c; unfold pd.col; by destruct df).
  assert (∀ (c : Row → Z) v, v ∈ pd.col c df → ∃ r, r ∈ df ∧ v = c r) as Hin.
  { intros c v Hv. unfold pd.col in Hv.
    apply list_elem_of_fmap in Hv as (r & -> & Hr). eauto. }
  unfold valores_iniciales, min_date, max_date, min_venta, max_venta, min_inv,
    max_inv, pd.dt_date.
  destruct (Series_min_is_Some _ (Hcol Fecha)) as [d0 Hd0].
  destruct (Series_max_is_Some _ (Hcol Fecha)) as [d1 Hd1].
  destruct (Series_min_is_Some _ (Hcol Cantidad_Vendida)) as [v0 Hv0].
  destruct (Series_max_is_Some _ (Hcol Cantidad_Vendida)) as [v1 Hv1].
  destruct (Series_min_is_Some _ (Hcol Inventario)) as [i0 Hi0].
  destruct (Series_max_is_Some _ (Hcol Inventario)) as [i1 Hi1].
  rewrite Hd0, Hd1, Hv0, Hv1, Hi0, Hi1. simpl.
  apply Series_min_spec in Hd0 as [Hd0 Hd0'], Hv0 as [Hv0 Hv0'],
    Hi0 as [Hi0 Hi0'].
  apply Series_max_spec in Hd1 as [Hd1 Hd1'], Hv1 as [Hv1 Hv1'],
    Hi1 as [Hi1 Hi1'].
  rewrite Hfe in Hd0, Hd0', Hd1, Hd1'.
  assert (d0 = datetime.toordinal 2023 1 1) as ->.
  { apply elem_of_fechas in Hd0.
    pose proof (Hd0' (datetime.toordinal 2023 1 1)
                  ltac:(apply elem_of_fechas; by vm_compute)). lia. }
  assert (d1 = datetime.toordinal 2023 12 31) as ->.
  { apply elem_of_fechas in Hd1.
    pose proof (Hd1' (datetime.toordinal 2023 12 31)
                  ltac:(apply elem_of_fechas; by vm_compute)). lia. }
  exists v0, v1, i0, i1. split; [done|].
  pose proof (Hv0' v1 Hv1). pose proof (Hi0' i1 Hi1).
  apply Hin in Hv0 as (r1 & Hr1 & ->), Hv1 as (r2 & Hr2 & ->),
    Hi0 as (r3 & Hr3 & ->), Hi1 as (r4 & Hr4 & ->).
  apply Hrows in Hr1, Hr2, Hr3, Hr4. lia.
Qed.

Lemma generated_initial_widgets_witness :
  valores_iniciales ejemplo_generado
  = Some (mkSpec 738521 738885 [Todos] (1, 19) (20, 99)).
Proof.
  destruct (generated_initial_widgets ejemplo_generado ejemplo_generado_ok)
    as (v0 & v1 & i0 & i1 & Hw & _).
  vm_compute in Hw. injection Hw as <- <- <- <-. reflexivity.
Defined.
